(** * Media intelligence dashboard: cleaning and aggregation pipeline

    A shallow embedding of [streamlitapp.py]: the column-name normalizer,
    [clean_data], [get_gemini_insight] and the chart section of the script,
    with the properties of the specification stated and proved against them.

    Conventions of the embedding.
    - A Python [str] is a [string], the bytes of its UTF-8 encoding.  The
      separators of the normalizer are ASCII, so that removing them from the
      bytes is removing them from the text; [str.lower], which works on the
      whole of Unicode, is a collaborator.
    - A [DataFrame] is column oriented, as pandas stores it: the row labels
      and an ordered list of named columns.  An integer cell is an int64:
      sums wrap around, and the cast of a float to an integer raises on an
      infinite value and is left to the platform out of range.
    - A run of the script is a computation in a small monad [M]: the
      messages written to the page, and an end that is a value, [st.stop]
      or an exception.  The static parts of the page (title, style sheet,
      upload prompt, export note) are not modelled.
    - The pandas parsers ([pd.to_datetime], [pd.to_numeric]), the unstable
      sort behind [sort_values] / [value_counts] and the HTTP exchange are
      collaborators of the script: they are Section variables, constrained
      only by what the libraries document. *)

From Stdlib Require Import List String Ascii Bool Arith ZArith QArith Qround Lia.
From Stdlib Require Import Permutation Sorted DecimalString.

Set Warnings "-register-all".

Import ListNotations.

Local Close Scope Q_scope.
Local Open Scope string_scope.
Local Open Scope list_scope.

(** ** Strings *)

Module Str.

(** [c.lower()] for an ASCII character [c]; other bytes are left alone. *)
Definition ascii_lower_char (c : ascii) : ascii :=
  let n := nat_of_ascii c in
  if Nat.leb 65 n && Nat.leb n 90 then ascii_of_nat (n + 32) else c.

(** [s.lower()] for an ASCII text [s]. *)
Fixpoint ascii_lower (s : string) : string :=
  match s with
  | EmptyString => EmptyString
  | String c s' => String (ascii_lower_char c) (ascii_lower s')
  end.

(** [s.isascii()] *)
Fixpoint is_ascii (s : string) : bool :=
  match s with
  | EmptyString => true
  | String c s' => Nat.ltb (nat_of_ascii c) 128 && is_ascii s'
  end.

(** [s.replace(c, '')] for a one-character pattern [c]. *)
Fixpoint remove (c : ascii) (s : string) : string :=
  match s with
  | EmptyString => EmptyString
  | String a s' => if Ascii.eqb a c then remove c s' else String a (remove c s')
  end.

(** [sep.join(l)] *)
Fixpoint join (sep : string) (l : list string) : string :=
  match l with
  | [] => ""
  | [x] => x
  | x :: l' => x ++ sep ++ join sep l'
  end.

(** [str(n)] for a non-negative int. *)
Definition of_nat (n : nat) : string := NilZero.string_of_uint (Nat.to_uint n).

(** [str(z)] for an int. *)
Definition of_Z (z : Z) : string := NilZero.string_of_int (Z.to_int z).

(** [c in s] for a one-character [c]. *)
Fixpoint mem (c : ascii) (s : string) : bool :=
  match s with
  | EmptyString => false
  | String a s' => Ascii.eqb a c || mem c s'
  end.

End Str.

(** ** The normalizer *)

Section Normalizer.

(** [s.lower()], Python's lower-casing of a text. *)
Variable lower : string -> string.

(** [normalize_column_name(name)]:
    [name.lower().replace(' ', '').replace('-', '').replace('_', '')] *)
Definition normalize_column_name (name : string) : string :=
  Str.remove "_" (Str.remove "-" (Str.remove " " (lower name))).

End Normalizer.

(** The characters that the normalizer removes. *)
Definition separators : list ascii := [" "; "-"; "_"]%char.

(** What the normalizer needs of [str.lower]: a lower-cased text is not
    changed by lower-casing it again, *)
Definition lower_is_idempotent (lower : string -> string) : Prop :=
  forall x, lower (lower x) = lower x.

(** a text that lower-casing does not change is still not changed once a
    separator is removed from it, *)
Definition lower_survives_removal (lower : string -> string) : Prop :=
  forall sep y, In sep separators -> lower y = y ->
                lower (Str.remove sep y) = Str.remove sep y.

(** and on ASCII text it is the lower-casing of the letters A to Z. *)
Definition lower_on_ascii (lower : string -> string) : Prop :=
  forall x, Str.is_ascii x = true -> lower x = Str.ascii_lower x.

(** A character that ASCII lower-casing leaves alone and never produces out
    of another one. *)
Definition separator (sep : ascii) : Prop :=
  Str.ascii_lower_char sep = sep /\ forall a, Str.ascii_lower_char a = sep -> a = sep.

(** ** Values and frames *)

(** A cell of a frame.  [NaN] stands for every missing marker of pandas
    ([NaN], [NaT], [None]); a float cell is kept as the text it was read
    from, [pd.to_numeric] below gives its numeric reading. *)
Inductive value : Type :=
| NaN
| Text (s : string)
| Int (z : Z)
| Timestamp (ns : Z)
| Period (day : Z).

Definition value_eqb (a b : value) : bool :=
  match a, b with
  | NaN, NaN => true
  | Text s, Text t => String.eqb s t
  | Int x, Int y => Z.eqb x y
  | Timestamp x, Timestamp y => Z.eqb x y
  | Period x, Period y => Z.eqb x y
  | _, _ => false
  end.

Definition isna (v : value) : bool :=
  match v with NaN => true | _ => false end.

Definition notna (v : value) : bool := negb (isna v).

(** Boolean-mask selection, [col[mask]]. *)
Fixpoint select {A : Type} (mask : list bool) (l : list A) : list A :=
  match mask, l with
  | b :: mask', x :: l' => if b then x :: select mask' l' else select mask' l'
  | _, _ => []
  end.

(** A frame: the row labels and the named columns, in order. *)
Record DataFrame : Type := {
  index : list nat;
  cols : list (string * list value)
}.

(** [len(df)] *)
Definition len (df : DataFrame) : nat := List.length (index df).

(** [df.columns] *)
Definition columns (df : DataFrame) : list string := map fst (cols df).

(** [df.empty] *)
Definition empty (df : DataFrame) : bool :=
  Nat.eqb (len df) 0 || Nat.eqb (List.length (cols df)) 0.

(** Every column has one cell per row label. *)
Definition well_formed (df : DataFrame) : Prop :=
  Forall (fun c => List.length (snd c) = len df) (cols df).

(** [df.columns = [f(col) for col in df.columns]] *)
Definition rename_columns (f : string -> string) (df : DataFrame) : DataFrame :=
  {| index := index df; cols := map (fun c => (f (fst c), snd c)) (cols df) |}.

(** [name in df.columns] *)
Definition has_column (df : DataFrame) (name : string) : bool :=
  existsb (String.eqb name) (columns df).

(** [df[name] = col] *)
Definition setitem (df : DataFrame) (name : string) (col : list value) : DataFrame :=
  {| index := index df;
     cols := if has_column df name
             then map (fun c => if String.eqb (fst c) name then (name, col) else c) (cols df)
             else cols df ++ [(name, col)] |}.

(** [df[mask]]: the rows at which the mask holds. *)
Definition take (df : DataFrame) (mask : list bool) : DataFrame :=
  {| index := select mask (index df);
     cols := map (fun c => (fst c, select mask (snd c))) (cols df) |}.

(** ** Effects: the page, [st.stop] and exceptions *)

(** What the script writes to the page. *)
Inductive message : Type :=
| st_header (s : string)
| st_subheader (s : string)
| st_markdown (s : string)
| st_info (s : string)
| st_error (s : string)
| st_warning (s : string)
| st_success (s : string)
| st_plotly_chart (title : string) (names : list string) (data : list (value * Z)).

(** The exceptions met by the script, by class. *)
Inductive exception : Type :=
| ConnectionError (detail : string)
| Timeout (detail : string)
| HTTPError (status_code : Z)
| JSONDecodeError
| KeyError (key : string)
| AttributeError (attr : string)
| IndexError
| TypeError
| ValueError (detail : string)
| OtherException (detail : string).

(** [isinstance(e, requests.exceptions.RequestException)]; the error of
    decoding a response is one since requests 2.27. *)
Definition is_RequestException (e : exception) : bool :=
  match e with
  | ConnectionError _ | Timeout _ | HTTPError _ | JSONDecodeError => true
  | _ => false
  end.

Inductive result (A : Type) : Type :=
| Ok (a : A)
| Stopped
| Raised (e : exception).

Arguments Ok {A} a.
Arguments Stopped {A}.
Arguments Raised {A} e.

(** A computation of the script: what it wrote, and how it ended. *)
Definition M (A : Type) : Type := list message * result A.

Definition ret {A : Type} (a : A) : M A := ([], Ok a).

Definition bind {A B : Type} (m : M A) (k : A -> M B) : M B :=
  match m with
  | (w, Ok a) => let (w', r) := k a in (w ++ w', r)
  | (w, Stopped) => (w, Stopped)
  | (w, Raised e) => (w, Raised e)
  end.

Definition emit (msg : message) : M unit := ([msg], Ok tt).

(** [st.stop()]: ends the run; it is not an [Exception]. *)
Definition st_stop {A : Type} : M A := ([], Stopped).

Definition raise {A : Type} (e : exception) : M A := ([], Raised e).

(** [try: m  except Exception as e: handler(e)] *)
Definition try_except {A : Type} (m : M A) (handler : exception -> M A) : M A :=
  match m with
  | (w, Raised e) => let (w', r) := handler e in (w ++ w', r)
  | _ => m
  end.

Definition output {A : Type} (m : M A) : list message := fst m.
Definition outcome {A : Type} (m : M A) : result A := snd m.

Declare Scope script_scope.
Delimit Scope script_scope with script.
Notation "x <- m ;; k" := (bind m (fun x => k))
  (at level 61, m at next level, right associativity) : script_scope.
Notation "m ;; k" := (bind m (fun _ => k))
  (at level 61, right associativity) : script_scope.
Local Open Scope script_scope.

(** [df[name]] as a column.  A label that is absent raises [KeyError]; a
    repeated label selects a sub-frame, which every use in this script
    rejects. *)
Definition getitem (df : DataFrame) (name : string) : M (list value) :=
  match filter (fun c => String.eqb (fst c) name) (cols df) with
  | [] => raise (KeyError name)
  | [c] => ret (snd c)
  | _ => raise (ValueError name)
  end.

(** [df.dropna(subset=[name], inplace=True)] *)
Definition dropna (df : DataFrame) (name : string) : M DataFrame :=
  col <- getitem df name ;;
  ret (take df (map notna col)).

(** ** The cleaner *)

Definition expected_columns : list string :=
  ["date"; "platform"; "sentiment"; "location"; "engagements"; "mediatype"].

(** A float that is not NaN: a finite number, or an infinity. *)
Inductive number : Type :=
| Finite (q : Q)
| Infinity (negative : bool).

(** [.fillna(0)] on one numeric reading. *)
Definition fillna0 (x : option number) : number :=
  match x with Some n => n | None => Finite 0%Q end.

(** The integer part of a finite number, toward zero. *)
Definition truncate (q : Q) : Z := Z.quot (Qnum q) (Zpos (Qden q)).

Definition min_int64 : Z := - 2 ^ 63.
Definition max_int64 : Z := 2 ^ 63 - 1.

(** An integer that an int64 holds. *)
Definition fits_int64 (z : Z) : bool := Z.leb min_int64 z && Z.leb z max_int64.

(** The int64 that an integer becomes in two's complement. *)
Definition wrap64 (z : Z) : Z := (z - min_int64) mod 2 ^ 64 + min_int64.

(** Addition of two int64. *)
Definition add64 (a b : Z) : Z := wrap64 (a + b).

(** The sum of a column of int64. *)
Definition sum64 (l : list Z) : Z := fold_right add64 0%Z l.

Definition non_finite : exception :=
  ValueError "Cannot convert non-finite values (NA or inf) to integer".

Section Cast.

(** The int64 that the platform's conversion gives for a finite float whose
    integer part no int64 holds (numpy leaves it to the processor). *)
Variable cast_overflow : Q -> Z.

(** The cast of one finite float to int64. *)
Definition to_int64 (q : Q) : Z :=
  if fits_int64 (truncate q) then truncate q else wrap64 (cast_overflow q).

(** [col.astype(int)] on a float column without NaN: pandas raises when a
    value is not finite. *)
Fixpoint astype_int (col : list number) : M (list Z) :=
  match col with
  | [] => ret []
  | Finite q :: col' => zs <- astype_int col' ;; ret (to_int64 q :: zs)
  | Infinity _ :: _ => raise non_finite
  end.

End Cast.

(** A parsed date as a cell: [NaT] where parsing failed. *)
Definition of_datetime (t : option Z) : value :=
  match t with Some ns => Timestamp ns | None => NaN end.

Definition cleaning_summary : string :=
  "
    - 'Date' column converted to datetime objects. Invalid dates were filtered out.
    - Missing 'Engagements' values filled with 0.
    - Column names normalized (e.g., 'Media Type' became 'mediatype').
    ".

Section Cleaner.

(** [s.lower()] *)
Variable lower : string -> string.

(** [pd.to_datetime(col, errors='coerce')]: one reading per cell, [None]
    where the cell does not parse.  It works on the whole column (the format
    may be inferred from it). *)
Variable to_datetime : list value -> list (option Z).

(** [pd.to_numeric(col, errors='coerce')] on one cell: its numeric
    reading, [None] (NaN) where there is none. *)
Variable to_numeric : value -> option number.

Variable cast_overflow : Q -> Z.

Definition clean_data (df : DataFrame) : M DataFrame :=
  emit (st_subheader "2. Data Cleaning Summary") ;;
  emit (st_markdown cleaning_summary) ;;
  let original_rows := len df in
  emit (st_info ("Original number of rows: " ++ Str.of_nat original_rows)) ;;
  let df := rename_columns (normalize_column_name lower) df in
  let missing_columns :=
    filter (fun col => negb (has_column df col)) expected_columns in
  (match missing_columns with
   | [] => ret tt
   | _ :: _ =>
       emit (st_error
               ("Error: Missing required columns in CSV: "
                ++ Str.join ", " missing_columns
                ++ ". Please ensure your CSV has 'Date', 'Platform', 'Sentiment', 'Location', 'Engagements', 'Media Type' columns.")) ;;
       st_stop
   end) ;;
  date <- getitem df "date" ;;
  let df := setitem df "date" (map of_datetime (to_datetime date)) in
  df <- dropna df "date" ;;
  let rows_after_date_clean := len df in
  (if Nat.ltb rows_after_date_clean original_rows
   then emit (st_warning ("Removed " ++ Str.of_nat (original_rows - rows_after_date_clean)
                          ++ " rows due to invalid 'Date' formats."))
   else ret tt) ;;
  engagements <- getitem df "engagements" ;;
  numbers <- astype_int cast_overflow
               (map (fun v => fillna0 (to_numeric v)) engagements) ;;
  let df := setitem df "engagements" (map Int numbers) in
  emit (st_success ("Successfully processed " ++ Str.of_nat (len df)
                    ++ " rows of data after cleaning.")) ;;
  ret df.

End Cleaner.

(** ** Vocabulary for the cleaner's contract *)

(** The column under a label (the first one, should the label be repeated;
    no cell at all, should it be absent). *)
Definition column (df : DataFrame) (name : string) : list value :=
  match find (fun c => String.eqb (fst c) name) (cols df) with
  | Some c => snd c
  | None => []
  end.

Section Schema.

Variable lower : string -> string.

(** The frame under its canonical column names. *)
Definition normalized (df : DataFrame) : DataFrame :=
  rename_columns (normalize_column_name lower) df.

(** The required columns that the upload lacks, in schema order. *)
Definition missing_columns (df : DataFrame) : list string :=
  filter (fun col => negb (has_column (normalized df) col)) expected_columns.

(** No two raw names collide on one canonical name. *)
Definition no_collision (df : DataFrame) : Prop :=
  NoDup (columns (normalized df)).


End Schema.

Definition is_some {A : Type} (x : option A) : bool :=
  match x with Some _ => true | None => false end.

Section CleanerContract.

Variable lower : string -> string.
Variable to_datetime : list value -> list (option Z).
Variable to_numeric : value -> option number.
Variable cast_overflow : Q -> Z.

(** The readings of the [date] column. *)
Definition parsed_dates (df : DataFrame) : list (option Z) :=
  to_datetime (column (normalized lower df) "date").

(** The rows whose date parsed. *)
Definition date_mask (df : DataFrame) : list bool :=
  map is_some (parsed_dates df).

(** The number of rows whose date did not parse. *)
Definition dropped_rows (df : DataFrame) : nat :=
  List.length (filter negb (date_mask df)).

(** The [engagements] cells of the rows whose date parsed. *)
Definition kept_engagements (df : DataFrame) : list value :=
  select (date_mask df) (column (normalized lower df) "engagements").

(** Their numeric readings, the missing ones filled with 0. *)
Definition kept_numbers (df : DataFrame) : list number :=
  map (fun v => fillna0 (to_numeric v)) (kept_engagements df).

(** The table once the dates are parsed and the rows without date dropped. *)
Definition dated (df : DataFrame) : DataFrame :=
  take (setitem (normalized lower df) "date" (map of_datetime (parsed_dates df)))
       (date_mask df).

(** A cell and the int64 that the cleaner makes of it: 0 when the cell has
    no numeric reading, the cast of the reading when it is finite; an
    infinite reading has none. *)
Inductive coerced : value -> Z -> Prop :=
| coerced_missing (v : value) :
    to_numeric v = None -> coerced v 0%Z
| coerced_finite (v : value) (q : Q) :
    to_numeric v = Some (Finite q) -> coerced v (to_int64 cast_overflow q).

(** The cast of a column of cells, where it goes through. *)
Definition cast_cells (col : list value) : list value :=
  match outcome (astype_int cast_overflow (map (fun v => fillna0 (to_numeric v)) col)) with
  | Ok numbers => map Int numbers
  | _ => []
  end.

(** The cleaned table, column by column. *)
Definition cleaned (df : DataFrame) : DataFrame :=
  {| index := select (date_mask df) (index df);
     cols := map (fun c =>
               let name := normalize_column_name lower (fst c) in
               (name,
                if String.eqb name "date"
                then select (date_mask df) (map of_datetime (parsed_dates df))
                else if String.eqb name "engagements"
                then cast_cells (select (date_mask df) (snd c))
                else select (date_mask df) (snd c)))
             (cols df) |}.

(** What the cleaner writes up to the cast of the engagements. *)
Definition cleaning_preamble (df : DataFrame) : list message :=
  [st_subheader "2. Data Cleaning Summary";
   st_markdown cleaning_summary;
   st_info ("Original number of rows: " ++ Str.of_nat (len df))]
  ++ (if Nat.ltb (len (cleaned df)) (len df)
      then [st_warning ("Removed " ++ Str.of_nat (len df - len (cleaned df))
                        ++ " rows due to invalid 'Date' formats.")]
      else []).

(** What the cleaner writes when it returns. *)
Definition cleaning_report (df : DataFrame) : list message :=
  cleaning_preamble df
  ++ [st_success ("Successfully processed " ++ Str.of_nat (len (cleaned df))
                  ++ " rows of data after cleaning.")].

End CleanerContract.


(** ** The insight requester *)

(** A decoded JSON document; an object is the list of its items. *)
Inductive json : Type :=
| JNull
| JBool (b : bool)
| JNumber (q : Q)
| JString (s : string)
| JArray (elements : list json)
| JObject (items : list (string * json)).

(** Python truth value of a decoded document. *)
Definition truthy (j : json) : bool :=
  match j with
  | JNull => false
  | JBool b => b
  | JNumber q => negb (Z.eqb (Qnum q) 0)
  | JString s => negb (String.eqb s "")
  | JArray l => negb (Nat.eqb (List.length l) 0)
  | JObject l => negb (Nat.eqb (List.length l) 0)
  end.

Definition lookup (key : string) (items : list (string * json)) : option json :=
  option_map snd (find (fun kv => String.eqb (fst kv) key) items).

(** [x.get(key)] *)
Definition py_get (x : json) (key : string) : M json :=
  match x with
  | JObject items =>
      ret (match lookup key items with Some v => v | None => JNull end)
  | _ => raise (AttributeError "get")
  end.

(** [x[key]] for a string key *)
Definition py_item (x : json) (key : string) : M json :=
  match x with
  | JObject items =>
      match lookup key items with Some v => ret v | None => raise (KeyError key) end
  | _ => raise TypeError
  end.

(** [x[0]] *)
Definition py_first (x : json) : M json :=
  match x with
  | JArray (v :: _) => ret v
  | JArray [] => raise IndexError
  | JString (String c _) => ret (JString (String c EmptyString))
  | JString EmptyString => raise IndexError
  | JObject _ => raise (KeyError "0")
  | _ => raise TypeError
  end.

(** What [requests.post] hands back. *)
Record Response : Type := {
  status_code : Z;
  json_ : exception + json   (* [response.json()]: the document, or the error of decoding *)
}.

Inductive exchange : Type :=
| PostRaises (e : exception)
| PostReturns (r : Response).

(** [response.raise_for_status()]: raises for the 4xx and 5xx statuses. *)
Definition raise_for_status (r : Response) : M unit :=
  if Z.leb 400 (status_code r) && Z.ltb (status_code r) 600
  then raise (HTTPError (status_code r))
  else ret tt.

Definition placeholder_key : string := "YOUR_GEMINI_API_KEY".

Definition not_configured : string :=
  "Gemini API key is not configured. Please set your API key to generate insights.".

Definition no_insight : string := "Could not generate insights for this chart.".

Section Insight.

(** The configured credential (the source ships [placeholder_key]). *)
Variable GEMINI_API_KEY : string.

(** [requests.post(api_url, headers=headers, data=json.dumps(payload))] *)
Variable post : string -> json -> exchange.

(** [str(e)] *)
Variable str_exception : exception -> string.

Definition api_url : string :=
  "https://generativelanguage.googleapis.com/v1beta/models/gemini-2.0-flash:generateContent?key="
  ++ GEMINI_API_KEY.

Definition payload (prompt_text : string) : json :=
  JObject [("contents",
            JArray [JObject [("role", JString "user");
                             ("parts", JArray [JObject [("text", JString prompt_text)]])]])].

Definition request_failed (e : exception) : string :=
  "Error calling Gemini API: " ++ str_exception e ++ ". Check your API key and network.".

Definition unexpected (e : exception) : string :=
  "An unexpected error occurred: " ++ str_exception e.

Definition get_gemini_insight (prompt_text : string) : M json :=
  if String.eqb GEMINI_API_KEY "" || String.eqb GEMINI_API_KEY placeholder_key
  then ret (JString not_configured)
  else
    try_except
      (response <- match post api_url (payload prompt_text) with
                   | PostRaises e => raise e
                   | PostReturns r => ret r
                   end ;;
       raise_for_status response ;;
       result <- match json_ response with
                 | inl e => raise e
                 | inr doc => ret doc
                 end ;;
       candidates <- (if truthy result then py_get result "candidates" else ret result) ;;
       if truthy candidates then
         candidates <- py_item result "candidates" ;;
         first_candidate <- py_first candidates ;;
         content <- py_get first_candidate "content" ;;
         parts <- (if truthy content
                   then content <- py_item first_candidate "content" ;;
                        py_get content "parts"
                   else ret content) ;;
         if truthy parts then
           content <- py_item first_candidate "content" ;;
           parts <- py_item content "parts" ;;
           part <- py_first parts ;;
           py_item part "text"
         else ret (JString no_insight)
       else ret (JString no_insight))
      (fun e =>
         if is_RequestException e
         then ret (JString (request_failed e))
         else ret (JString (unexpected e))).

End Insight.

(** ** The aggregator *)

(** The distinct cells of a column, in order of first appearance. *)
Fixpoint unique (l : list value) : list value :=
  match l with
  | [] => []
  | x :: l' => x :: filter (fun y => negb (value_eqb y x)) (unique l')
  end.

(** How many cells of the column are [k]. *)
Definition count (k : value) (l : list value) : Z :=
  Z.of_nat (List.length (filter (value_eqb k) l)).

(** The order that [groupby] puts its keys in: texts by code point,
    numbers, stamps and periods by value, kinds apart. *)
Definition kind (v : value) : Z :=
  match v with
  | NaN => 0 | Int _ => 1 | Timestamp _ => 2 | Period _ => 3 | Text _ => 4
  end.

Definition value_leb (a b : value) : bool :=
  match a, b with
  | Text s, Text t => String.leb s t
  | Int x, Int y => Z.leb x y
  | Timestamp x, Timestamp y => Z.leb x y
  | Period x, Period y => Z.leb x y
  | _, _ => Z.leb (kind a) (kind b)
  end.

Fixpoint insert_key (k : value) (l : list value) : list value :=
  match l with
  | [] => [k]
  | x :: l' => if value_leb k x then k :: l else x :: insert_key k l'
  end.

Definition sort_keys (l : list value) : list value :=
  fold_right insert_key [] l.

Definition sum (l : list Z) : Z := fold_right Z.add 0%Z l.

(** [keys.groupby(keys)[vals].sum().reset_index()]: one row per key that is
    not missing, keys ascending. *)
Definition groupby_sum (keys : list value) (vals : list Z) : list (value * Z) :=
  map (fun k => (k, sum64 (select (map (value_eqb k) keys) vals)))
      (sort_keys (unique (filter notna keys))).

(** The cells of an integer column, as the cleaner leaves [engagements];
    summing a column with a cell of another kind is taken to raise. *)
Fixpoint ints (l : list value) : M (list Z) :=
  match l with
  | [] => ret []
  | Int z :: l' => zs <- ints l' ;; ret (z :: zs)
  | _ :: _ => raise TypeError
  end.

Definition nanoseconds_per_day : Z := 86400000000000.

(** [col.dt.to_period('D')] *)
Fixpoint to_period_D (l : list value) : M (list value) :=
  match l with
  | [] => ret []
  | Timestamp ns :: l' =>
      ps <- to_period_D l' ;; ret (Period (Z.div ns nanoseconds_per_day) :: ps)
  | NaN :: l' => ps <- to_period_D l' ;; ret (NaN :: ps)
  | _ :: _ => raise (AttributeError "dt")
  end.

(** The first [n] rows, [view.head(n)]. *)
Definition head {A : Type} (n : nat) (l : list A) : list A := firstn n l.

Section Aggregator.

(** [sort_values(by=<the number column>, ascending=False)]: pandas sorts
    with an unstable sort, the order among equal numbers is its own. *)
Variable sort_values : list (value * Z) -> list (value * Z).

(** [str(period)] for a daily period. *)
Variable period_str : Z -> string.

(** [col.value_counts().reset_index()] *)
Definition value_counts (col : list value) : list (value * Z) :=
  sort_values (map (fun k => (k, count k col)) (unique (filter notna col))).

Definition sentiment_counts (df : DataFrame) : M (list (value * Z)) :=
  sentiment <- getitem df "sentiment" ;;
  ret (value_counts sentiment).

Definition astype_str (v : value) : value :=
  match v with Period d => Text (period_str d) | _ => v end.

Definition engagement_trend (df : DataFrame) : M (list (value * Z)) :=
  date <- getitem df "date" ;;
  periods <- to_period_D date ;;
  engagements <- getitem df "engagements" ;;
  engagements <- ints engagements ;;
  ret (map (fun r => (astype_str (fst r), snd r)) (groupby_sum periods engagements)).

Definition platform_engagements (df : DataFrame) : M (list (value * Z)) :=
  platform <- getitem df "platform" ;;
  engagements <- getitem df "engagements" ;;
  engagements <- ints engagements ;;
  ret (sort_values (groupby_sum platform engagements)).

Definition mediatype_counts (df : DataFrame) : M (list (value * Z)) :=
  mediatype <- getitem df "mediatype" ;;
  ret (value_counts mediatype).

Definition location_engagements (df : DataFrame) : M (list (value * Z)) :=
  location <- getitem df "location" ;;
  engagements <- getitem df "engagements" ;;
  engagements <- ints engagements ;;
  ret (head 5 (sort_values (groupby_sum location engagements))).

End Aggregator.


(** ** The script *)

(** A summary view with its commentary. *)
Record chart : Type := {
  view : list (value * Z);
  insight : json
}.

(** The five charts of one run. *)
Record dashboard : Type := {
  sentiment_chart : chart;
  engagement_chart : chart;
  platform_chart : chart;
  mediatype_chart : chart;
  location_chart : chart
}.

Definition views (d : dashboard) : list (list (value * Z)) :=
  [view (sentiment_chart d); view (engagement_chart d); view (platform_chart d);
   view (mediatype_chart d); view (location_chart d)].

Definition newline : string := String (ascii_of_nat 10) EmptyString.

Definition prompt_sentiment (records : string) : string :=
  "Given the following sentiment distribution from a media dataset: " ++ records
  ++ ". Provide 3 key insights about the overall sentiment. Focus on the most prevalent sentiments and any notable imbalances. Present insights as plain text, without any markdown formatting like bolding or bullet points. Use bullet points for readability. Also mention the dominant sentiment and why it is important".

Definition prompt_engagement (records : string) : string :=
  "Analyze the following engagement data over time: " ++ records
  ++ ". Describe the trend of engagements over the period. Are there any peaks, troughs, or consistent patterns? Give 3 key insights. Present insights as plain text, without any markdown formatting like bolding or bullet points. Use bullet points for readability. Highlight any significant spikes or drops in engagement".

Definition prompt_platform (records : string) : string :=
  "Based on the total engagements per platform: " ++ records
  ++ ". What are the top platforms driving engagements? Are there any platforms significantly underperforming? Provide 3 key insights. Present insights as plain text, without any markdown formatting like bolding or bullet points. Use bullet points for readability. Identify top performing platforms".

Definition prompt_mediatype (records : string) : string :=
  "Given the distribution of media types: " ++ records
  ++ ". What are the most common media types used? Is there a significant preference for certain types? Give 3 key insights. Present insights as plain text, without any markdown formatting like bolding or bullet points. Use bullet points for readability. Discuss the most prevalent media type".

Definition prompt_location (records : string) : string :=
  "Here are the top 5 locations by engagements: " ++ records
  ++ ". What does this data tell us about geographical engagement? Are there specific regions that are highly active? Provide 3 key insights. Present insights as plain text, without any markdown formatting like bolding or bullet points. Use bullet points for readability. Point out the most engaged locations".

Section Script.

Variable lower : string -> string.
Variable to_datetime : list value -> list (option Z).
Variable to_numeric : value -> option number.
Variable cast_overflow : Q -> Z.
Variable sort_values : list (value * Z) -> list (value * Z).
Variable period_str : Z -> string.
Variable GEMINI_API_KEY : string.
Variable post : string -> json -> exchange.
Variable str_exception : exception -> string.

(** [pd.read_csv(uploaded_file)] *)
Variable read_csv : string -> exception + DataFrame.

(** [str(view.to_dict('records'))] under the given column names. *)
Variable to_dict_records : list string -> list (value * Z) -> string.

(** [str(x)] of a decoded document that is not a string. *)
Variable str_json : json -> string.

Definition format (x : json) : string :=
  match x with JString s => s | _ => str_json x end.

(** One block of the chart section: the view, its figure, its commentary.
    The script writes this block out five times. *)
Definition chart_block (title label : string) (names : list string)
    (data : M (list (value * Z))) (prompt : string -> string) : M chart :=
  emit (st_subheader title) ;;
  data <- data ;;
  emit (st_plotly_chart title names data) ;;
  insights <- get_gemini_insight GEMINI_API_KEY post str_exception
                (prompt (to_dict_records names data)) ;;
  emit (st_markdown ("**Top 3 Insights (" ++ label ++ "):**" ++ newline ++ newline
                     ++ format insights)) ;;
  emit (st_markdown "---") ;;
  ret {| view := data; insight := insights |}.

(** The chart section, run when the cleaned table is not empty. *)
Definition charts (df : DataFrame) : M dashboard :=
  emit (st_header "3. Interactive Charts") ;;
  c1 <- chart_block "Sentiment Breakdown" "Sentiment Breakdown"
          ["Sentiment"; "Count"]
          (sentiment_counts sort_values df) prompt_sentiment ;;
  c2 <- chart_block "Engagement Trend Over Time" "Engagement Trend"
          ["date"; "engagements"]
          (engagement_trend period_str df) prompt_engagement ;;
  c3 <- chart_block "Platform Engagements" "Platform Engagements"
          ["platform"; "engagements"]
          (platform_engagements sort_values df) prompt_platform ;;
  c4 <- chart_block "Media Type Mix" "Media Type Mix"
          ["MediaType"; "Count"]
          (mediatype_counts sort_values df) prompt_mediatype ;;
  c5 <- chart_block "Top 5 Locations by Engagements" "Top 5 Locations"
          ["location"; "engagements"]
          (location_engagements sort_values df) prompt_location ;;
  ret {| sentiment_chart := c1; engagement_chart := c2; platform_chart := c3;
         mediatype_chart := c4; location_chart := c5 |}.

(** The upload section: [df] is the cleaned table, or [None]. *)
Definition upload (uploaded_file : option string) : M (option DataFrame) :=
  match uploaded_file with
  | None => ret None
  | Some file =>
      try_except
        (df <- match read_csv file with
               | inl e => raise e
               | inr df => ret df
               end ;;
         df <- clean_data lower to_datetime to_numeric cast_overflow df ;;
         emit (st_success "CSV file uploaded and data cleaned successfully!") ;;
         ret (Some df))
        (fun e =>
           emit (st_error ("Error reading or cleaning CSV: " ++ str_exception e)) ;;
           ret None)
  end.

(** One run of the script on an upload. *)
Definition script (uploaded_file : option string) : M (option dashboard) :=
  df <- upload uploaded_file ;;
  match df with
  | Some df =>
      if negb (empty df)
      then d <- charts df ;; ret (Some d)
      else ret None
  | None => ret None
  end.

End Script.

(** A message that shows a figure. *)
Definition is_chart (m : message) : bool :=
  match m with st_plotly_chart _ _ _ => true | _ => false end.

Definition is_error (m : message) : bool :=
  match m with st_error _ => true | _ => false end.


(** ** Reference collaborators

    One concrete choice for each collaborator, to run the script on
    concrete uploads: ASCII lower-casing, ISO calendar dates, signed
    decimals and infinities, the out-of-range cast of x86-64, a stable
    insertion sort. *)

Module Reference.

Local Open Scope Z_scope.

Definition lower : string -> string := Str.ascii_lower.

(** Out of range, the conversion instruction of x86-64 gives the least
    int64. *)
Definition cast_overflow (q : Q) : Z := min_int64.

Definition digit (c : ascii) : option Z :=
  let n := nat_of_ascii c in
  if Nat.leb 48 n && Nat.leb n 57 then Some (Z.of_nat (n - 48)) else None.

(** The number written by a string of decimal digits, after [acc]. *)
Fixpoint digits (acc : Z) (s : string) : option Z :=
  match s with
  | EmptyString => Some acc
  | String c s' =>
      match digit c with
      | Some d => digits (10 * acc + d) s'
      | None => None
      end
  end.

Definition numeral (s : string) : option Z :=
  match s with
  | EmptyString => None
  | _ => digits 0 s
  end.

(** Days since 1970-01-01 of a civil date. *)
Definition days_from_civil (y m d : Z) : Z :=
  let y := if Z.leb m 2 then y - 1 else y in
  let era := y / 400 in
  let yoe := y - era * 400 in
  let doy := (153 * (if Z.ltb 2 m then m - 3 else m + 9) + 2) / 5 + d - 1 in
  let doe := yoe * 365 + yoe / 4 - yoe / 100 + doy in
  era * 146097 + doe - 719468.

(** The civil date of a day number. *)
Definition civil_from_days (z : Z) : Z * Z * Z :=
  let z := z + 719468 in
  let era := z / 146097 in
  let doe := z - era * 146097 in
  let yoe := (doe - doe / 1460 + doe / 36524 - doe / 146096) / 365 in
  let y := yoe + era * 400 in
  let doy := doe - (365 * yoe + yoe / 4 - yoe / 100) in
  let mp := (5 * doy + 2) / 153 in
  let d := doy - (153 * mp + 2) / 5 + 1 in
  let m := if Z.ltb mp 10 then mp + 3 else mp - 9 in
  (if Z.leb m 2 then y + 1 else y, m, d).

(** A date written [YYYY-MM-DD]. *)
Definition iso_date (s : string) : option Z :=
  if Nat.eqb (String.length s) 10
     && String.eqb (substring 4 1 s) "-" && String.eqb (substring 7 1 s) "-"
  then
    match numeral (substring 0 4 s), numeral (substring 5 2 s), numeral (substring 8 2 s) with
    | Some y, Some m, Some d =>
        if Z.leb 1 m && Z.leb m 12 && Z.leb 1 d && Z.leb d 31
        then Some (days_from_civil y m d * nanoseconds_per_day)
        else None
    | _, _, _ => None
    end
  else None.

Definition to_datetime (col : list value) : list (option Z) :=
  map (fun v => match v with
                | Text s => iso_date s
                | Timestamp ns => Some ns
                | _ => None
                end) col.

(** The text before and after the first [.], if there is one. *)
Fixpoint split_point (s : string) : string * option string :=
  match s with
  | EmptyString => (EmptyString, None)
  | String c s' =>
      if Ascii.eqb c "." then (EmptyString, Some s')
      else let (a, b) := split_point s' in (String c a, b)
  end.

Definition unsigned_decimal (s : string) : option Q :=
  let (whole, fraction) := split_point s in
  match numeral whole, fraction with
  | Some w, None => Some (inject_Z w)
  | Some w, Some f =>
      match numeral f with
      | Some n =>
          let scale := Pos.pow 10 (Pos.of_nat (String.length f)) in
          Some (Qmake (w * Zpos scale + n) scale)
      | None => None
      end
  | None, _ => None
  end.

(** A signed decimal: [5], [-3], [5.75]. *)
Definition decimal (s : string) : option Q :=
  match s with
  | String "-" s' => option_map Qopp (unsigned_decimal s')
  | _ => unsigned_decimal s
  end.

Definition to_numeric (v : value) : option number :=
  match v with
  | Text s =>
      if String.eqb s "inf" then Some (Infinity false)
      else if String.eqb s "-inf" then Some (Infinity true)
      else option_map Finite (decimal s)
  | Int z => Some (Finite (inject_Z z))
  | _ => None
  end.

(** Descending by the number, equal numbers in their order of arrival: a
    row goes before the first row that has no larger number. *)
Fixpoint insert_desc (r : value * Z) (l : list (value * Z)) : list (value * Z) :=
  match l with
  | [] => [r]
  | x :: l' => if Z.leb (snd x) (snd r) then r :: l else x :: insert_desc r l'
  end.

Definition sort_values (l : list (value * Z)) : list (value * Z) :=
  fold_right insert_desc [] l.

Definition two_digits (n : Z) : string :=
  (if Z.ltb n 10 then "0" else "") ++ Str.of_Z n.

Definition period_str (day : Z) : string :=
  let '(y, m, d) := civil_from_days day in
  Str.of_Z y ++ "-" ++ two_digits m ++ "-" ++ two_digits d.

Definition str_exception (e : exception) : string :=
  match e with
  | ConnectionError d => "connection error: " ++ d
  | Timeout d => "timeout: " ++ d
  | HTTPError c => Str.of_Z c ++ " error"
  | JSONDecodeError => "invalid JSON"
  | KeyError k => "'" ++ k ++ "'"
  | AttributeError a => "no attribute '" ++ a ++ "'"
  | IndexError => "index out of range"
  | TypeError => "type error"
  | ValueError d => d
  | OtherException d => d
  end.

Definition str_value (v : value) : string :=
  match v with
  | NaN => "nan"
  | Text s => "'" ++ s ++ "'"
  | Int z => Str.of_Z z
  | Timestamp ns => "Timestamp(" ++ Str.of_Z ns ++ ")"
  | Period d => "Period('" ++ period_str d ++ "')"
  end.

Definition to_dict_records (names : list string) (data : list (value * Z)) : string :=
  "[" ++ Str.join ", "
           (map (fun r => ("{'" ++ nth 0 names "" ++ "': " ++ str_value (fst r)
                           ++ ", '" ++ nth 1 names "" ++ "': " ++ Str.of_Z (snd r) ++ "}")%string)
              data)
  ++ "]".

Definition str_json (x : json) : string :=
  match x with
  | JNull => "None"
  | JBool true => "True"
  | JBool false => "False"
  | JString s => s
  | _ => "..."
  end.

End Reference.


(** ** Uploads used as running examples *)

Module Uploads.

(** A frame read from a file: rows labelled [0 .. n-1]. *)
Definition frame (n : nat) (columns : list (string * list value)) : DataFrame :=
  {| index := seq 0 n; cols := columns |}.

(** Three rows, the middle one with a date that does not parse. *)
Definition dates : DataFrame :=
  frame 3
    [("Date", [Text "2024-01-01"; Text "not-a-date"; Text "2024-01-03"]);
     ("Platform", [Text "X"; Text "X"; Text "Web"]);
     ("Sentiment", [Text "positive"; Text "negative"; Text "positive"]);
     ("Location", [Text "Jakarta"; Text "Bandung"; Text "Jakarta"]);
     ("Engagements", [Text "12"; Text "7"; Text "30"]);
     ("Media Type", [Text "video"; Text "text"; Text "text"])].

(** Four rows with the engagement cells of the specification, and a
    seventh column. *)
Definition engagements : DataFrame :=
  frame 4
    [("Date", [Text "2024-01-01"; Text "2024-01-02"; Text "2024-01-03"; Text "2024-01-04"]);
     ("Platform", [Text "X"; Text "X"; Text "Web"; Text "Web"]);
     ("Sentiment", [Text "positive"; Text "negative"; Text "positive"; NaN]);
     ("Location", [Text "Jakarta"; Text "Bandung"; Text "Jakarta"; Text "Medan"]);
     ("Engagements", [Text "5"; Text ""; Text "abc"; Text "-3"]);
     ("Media Type", [Text "video"; Text "text"; Text "text"; Text "image"]);
     ("Author", [Text "ani"; Text "budi"; NaN; Text "citra"])].

(** No [Location] and no [Media Type] column. *)
Definition no_location : DataFrame :=
  frame 1
    [("Date", [Text "2024-01-01"]);
     ("Platform", [Text "X"]);
     ("Sentiment", [Text "positive"]);
     ("Engagements", [Text "5"])].

(** No date parses: the cleaned table has no row. *)
Definition no_valid_date : DataFrame :=
  frame 2
    [("Date", [Text "yesterday"; Text "soon"]);
     ("Platform", [Text "X"; Text "Web"]);
     ("Sentiment", [Text "positive"; Text "negative"]);
     ("Location", [Text "Jakarta"; Text "Bandung"]);
     ("Engagements", [Text "12"; Text "7"]);
     ("Media Type", [Text "video"; Text "text"])].

(** Two rows, the second with an engagement count written [inf]. *)
Definition infinite : DataFrame :=
  frame 2
    [("Date", [Text "2024-01-01"; Text "2024-01-02"]);
     ("Platform", [Text "X"; Text "Web"]);
     ("Sentiment", [Text "positive"; Text "negative"]);
     ("Location", [Text "Jakarta"; Text "Bandung"]);
     ("Engagements", [Text "12"; Text "inf"]);
     ("Media Type", [Text "video"; Text "text"])].

(** Eight rows over six locations, with the sums
    A:10, B:30, C:20, D:5, E:25, F:1. *)
Definition locations : DataFrame :=
  frame 8
    [("date", repeat (Text "2024-01-01") 8);
     ("platform", repeat (Text "X") 8);
     ("sentiment", repeat (Text "neutral") 8);
     ("location", [Text "A"; Text "B"; Text "C"; Text "D"; Text "E"; Text "F"; Text "B"; Text "A"]);
     ("engagements", [Text "4"; Text "10"; Text "20"; Text "5"; Text "25"; Text "1"; Text "20"; Text "6"]);
     ("mediatype", repeat (Text "text") 8)].

Definition read_csv (file : string) : exception + DataFrame :=
  if String.eqb file "dates.csv" then inr dates
  else if String.eqb file "engagements.csv" then inr engagements
  else if String.eqb file "no_location.csv" then inr no_location
  else if String.eqb file "no_valid_date.csv" then inr no_valid_date
  else if String.eqb file "locations.csv" then inr locations
  else if String.eqb file "infinite.csv" then inr infinite
  else inl (ValueError "No columns to parse from file").

(** An exchange that ends in a server error. *)
Definition server_error (url : string) (body : json) : exchange :=
  PostReturns {| status_code := 500; json_ := inl JSONDecodeError |}.

(** An exchange answered with status 304 and a usable document. *)
Definition not_modified (url : string) (body : json) : exchange :=
  PostReturns {| status_code := 304;
                 json_ := inr (JObject [("candidates",
                            JArray [JObject [("content",
                              JObject [("parts",
                                JArray [JObject [("text", JString "All quiet.")]])])]])]) |}.

End Uploads.


(** ** Vocabulary for the invariant of a cleaned table *)

Definition is_timestamp (v : value) : bool :=
  match v with Timestamp _ => true | _ => false end.

Definition is_int (v : value) : bool :=
  match v with Int _ => true | _ => false end.

Definition is_nonnegative_int (v : value) : bool :=
  match v with Int z => Z.leb 0 z | _ => false end.

(** Every cell of the [date] column is a time stamp. *)
Definition valid_dates (df : DataFrame) : Prop :=
  exists col, getitem df "date" = ret col /\ forallb is_timestamp col = true.

(** Every cell of the [engagements] column is an integer. *)
Definition integer_engagements (df : DataFrame) : Prop :=
  exists col, getitem df "engagements" = ret col /\ forallb is_int col = true.

(** Every cell of the [engagements] column is an integer that is not
    negative. *)
Definition nonnegative_engagements (df : DataFrame) : Prop :=
  exists col, getitem df "engagements" = ret col
              /\ forallb is_nonnegative_int col = true.

(** The readings that succeeded, in order. *)
Fixpoint successes (l : list (option Z)) : list Z :=
  match l with
  | [] => []
  | Some t :: l' => t :: successes l'
  | None :: l' => successes l'
  end.




(** ** Vocabulary for the aggregator's contract *)

(** Rows in the order of [sort_values(ascending=False)]: no row has a
    smaller number than the row that follows it. *)
Definition descending (l : list (value * Z)) : Prop :=
  Sorted (fun a b => (snd b <= snd a)%Z) l.

(** What pandas documents of [sort_values]: the rows are the same, and in
    order. *)
Definition sorts (sort_values : list (value * Z) -> list (value * Z)) : Prop :=
  forall l, Permutation (sort_values l) l /\ descending (sort_values l).

(** The sum of [vals] over the rows whose key is [k]. *)
Definition sum_where (k : value) (keys : list value) (vals : list Z) : Z :=
  sum (select (map (value_eqb k) keys) vals).


(** ** Vocabulary for the insight requester's contract *)

(** A credential that lets the request go out. *)
Definition configured (key : string) : Prop :=
  key <> "" /\ key <> placeholder_key.

(** A failure of the exchange at the level of transport, with the exception
    that reports it: no connection, no answer in time, or an answer under
    an error status (4xx, 5xx). *)
Inductive transport_failure : exchange -> exception -> Prop :=
| connection_failed (detail : string) :
    transport_failure (PostRaises (ConnectionError detail)) (ConnectionError detail)
| timed_out (detail : string) :
    transport_failure (PostRaises (Timeout detail)) (Timeout detail)
| error_status (r : Response) :
    (400 <= status_code r < 600)%Z ->
    transport_failure (PostReturns r) (HTTPError (status_code r)).

(** An answer under a status outside 2xx. *)
Definition non_2xx (x : exchange) : Prop :=
  exists r, x = PostReturns r /\ ~ (200 <= status_code r < 300)%Z.

(** A text that reports a failure of the exchange. *)
Definition diagnostic (str_exception : exception -> string) (x : json) : Prop :=
  exists e, x = JString (request_failed str_exception e)
            \/ x = JString (unexpected str_exception e).

(** A computation that writes nothing and does not stop the run. *)
Definition quiet {A : Type} (m : M A) : Prop :=
  output m = [] /\ outcome m <> Stopped.


(** ** Vocabulary for the further properties *)

(** The headers that the upload prompt asks for. *)
Definition documented_headers : list string :=
  ["Date"; "Platform"; "Sentiment"; "Location"; "Engagements"; "Media Type"].

(** An upper-case ASCII letter. *)
Definition is_upper (c : ascii) : bool :=
  Nat.leb 65 (nat_of_ascii c) && Nat.leb (nat_of_ascii c) 90.


(** An answer under a status that [raise_for_status] lets through. *)
Definition ok_status (r : Response) : Prop :=
  ~ (400 <= status_code r < 600)%Z.

(** What [x.get(key)] finds in an object: the value, [None] if there is
    none. *)
Definition field (key : string) (x : json) : json :=
  match x with
  | JObject items => match lookup key items with Some v => v | None => JNull end
  | _ => JNull
  end.

(** A document in which the requester finds a text: a first candidate with
    a content whose first part has the text. *)
Inductive has_text : json -> json -> Prop :=
| has_text_intro (items candidate content fields : list (string * json))
    (candidates parts : list json) (text : json) :
    lookup "candidates" items = Some (JArray (JObject candidate :: candidates)) ->
    lookup "content" candidate = Some (JObject content) ->
    lookup "parts" content = Some (JArray (JObject fields :: parts)) ->
    lookup "text" fields = Some text ->
    has_text (JObject items) text.

(** A document in which the requester finds no candidate to use: it is
    empty, or has no candidate, or its first candidate has no content, or
    that content has no part. *)
Inductive without_candidate : json -> Prop :=
| empty_document (doc : json) :
    truthy doc = false -> without_candidate doc
| no_candidates (items : list (string * json)) :
    truthy (field "candidates" (JObject items)) = false ->
    without_candidate (JObject items)
| no_content (items candidate : list (string * json)) (candidates : list json) :
    lookup "candidates" items = Some (JArray (JObject candidate :: candidates)) ->
    truthy (field "content" (JObject candidate)) = false ->
    without_candidate (JObject items)
| no_parts (items candidate content : list (string * json)) (candidates : list json) :
    lookup "candidates" items = Some (JArray (JObject candidate :: candidates)) ->
    lookup "content" candidate = Some (JObject content) ->
    truthy (field "parts" (JObject content)) = false ->
    without_candidate (JObject items).

(** An exchange that ends in an exception inside the requester: raised by
    the call, by the status check, or by the decoding of the answer. *)
Inductive exchange_raises : exchange -> exception -> Prop :=
| post_raises (e : exception) : exchange_raises (PostRaises e) e
| status_raises (r : Response) :
    (400 <= status_code r < 600)%Z ->
    exchange_raises (PostReturns r) (HTTPError (status_code r))
| decoding_raises (r : Response) (e : exception) :
    ok_status r -> json_ r = inl e -> exchange_raises (PostReturns r) e.


(** ** Exchanges used as running examples *)

Module Exchanges.

(** Status 200 and a document without any candidate. *)
Definition no_candidate (url : string) (body : json) : exchange :=
  PostReturns {| status_code := 200;
                 json_ := inr (JObject [("candidates", JArray [])]) |}.

(** Status 200 and a document whose first part has no text. *)
Definition no_text (url : string) (body : json) : exchange :=
  PostReturns {| status_code := 200;
                 json_ := inr (JObject [("candidates",
                            JArray [JObject [("content",
                              JObject [("parts",
                                JArray [JObject [("inlineData", JString "...")]])])]])]) |}.

(** A call that ends in an exception foreign to the requests library. *)
Definition broken (url : string) (body : json) : exchange :=
  PostRaises (OtherException "out of memory").

End Exchanges.


(** The calendar day of a time stamp, as [to_period('D')] numbers it. *)
Definition day_of (ns : Z) : Z := Z.div ns nanoseconds_per_day.

(** The periods of a column of time stamps. *)
Definition periods_of (stamps : list Z) : list value :=
  map (fun ns => Period (day_of ns)) stamps.

Definition is_period (v : value) : bool :=
  match v with Period _ => true | _ => false end.

(** A column of periods. *)
Definition all_periods (l : list value) : Prop := forallb is_period l = true.

(** The day of a period. *)
Definition period_day (v : value) : Z :=
  match v with Period d => d | _ => 0%Z end.


(** * Properties *)

Example normalize_media_type :
  normalize_column_name Reference.lower "Media Type" = "mediatype"
  /\ normalize_column_name Reference.lower "media_type" = "mediatype"
  /\ normalize_column_name Reference.lower "MEDIA-TYPE" = "mediatype".
Proof. repeat split. Qed.

(** *** Lemmas on the string primitives *)

Lemma lower_ascii_idem (c : ascii) :
  Str.ascii_lower_char (Str.ascii_lower_char c) = Str.ascii_lower_char c.
Proof.
  destruct c as [[] [] [] [] [] [] [] []]; reflexivity.
Qed.

Lemma lower_idem (s : string) : Str.ascii_lower (Str.ascii_lower s) = Str.ascii_lower s.
Proof.
  induction s as [|c s IH]; simpl; [reflexivity|].
  now rewrite lower_ascii_idem, IH.
Qed.

(** Lower-casing never produces a separator out of another character, and
    leaves the separators alone: removal and lower-casing commute. *)
Lemma lower_ascii_eqb (c sep : ascii) :
  Str.ascii_lower_char sep = sep ->
  (forall a, Str.ascii_lower_char a = sep -> a = sep) ->
  Ascii.eqb (Str.ascii_lower_char c) sep = Ascii.eqb c sep.
Proof.
  intros Hfix Hinj.
  destruct (Ascii.eqb_spec c sep) as [->|Hne].
  - rewrite Hfix. apply Ascii.eqb_refl.
  - apply Ascii.eqb_neq. intros H. apply Hne, Hinj, H.
Qed.

Lemma separator_space : separator " ".
Proof.
  split; [reflexivity|].
  intros [[] [] [] [] [] [] [] []]; simpl; intros H; try discriminate H; reflexivity.
Qed.

Lemma separator_hyphen : separator "-".
Proof.
  split; [reflexivity|].
  intros [[] [] [] [] [] [] [] []]; simpl; intros H; try discriminate H; reflexivity.
Qed.

Lemma separator_underscore : separator "_".
Proof.
  split; [reflexivity|].
  intros [[] [] [] [] [] [] [] []]; simpl; intros H; try discriminate H; reflexivity.
Qed.

Lemma lower_remove (sep : ascii) (s : string) :
  separator sep -> Str.ascii_lower (Str.remove sep s) = Str.remove sep (Str.ascii_lower s).
Proof.
  intros [Hfix Hinj]. induction s as [|c s IH]; simpl; [reflexivity|].
  rewrite (lower_ascii_eqb c sep Hfix Hinj).
  destruct (Ascii.eqb c sep); simpl; now rewrite IH.
Qed.

Lemma remove_idem (c : ascii) (s : string) :
  Str.remove c (Str.remove c s) = Str.remove c s.
Proof.
  induction s as [|a s IH]; simpl; [reflexivity|].
  destruct (Ascii.eqb a c) eqn:E; simpl; [exact IH|].
  now rewrite E, IH.
Qed.

Lemma remove_comm (c d : ascii) (s : string) :
  Str.remove c (Str.remove d s) = Str.remove d (Str.remove c s).
Proof.
  induction s as [|a s IH]; simpl; [reflexivity|].
  destruct (Ascii.eqb a d) eqn:Ed, (Ascii.eqb a c) eqn:Ec; simpl;
    rewrite ?Ed, ?Ec, ?IH; reflexivity.
Qed.

Lemma remove_fixed_remove (c d : ascii) (s : string) :
  Str.remove c s = s -> Str.remove c (Str.remove d s) = Str.remove d s.
Proof. intros H. now rewrite remove_comm, H. Qed.

Lemma separator_In (sep : ascii) : In sep separators -> separator sep.
Proof.
  intros [<-|[<-|[<-|[]]]];
    [apply separator_space | apply separator_hyphen | apply separator_underscore].
Qed.

(** The ASCII lower-casing has what the normalizer needs of [str.lower]. *)
Lemma reference_lower_idempotent : lower_is_idempotent Reference.lower.
Proof. intros x. apply lower_idem. Qed.

Lemma reference_lower_survives_removal : lower_survives_removal Reference.lower.
Proof.
  intros sep y Hsep Hy. unfold Reference.lower in *.
  now rewrite (lower_remove sep y (separator_In sep Hsep)), Hy.
Qed.

Lemma reference_lower_on_ascii : lower_on_ascii Reference.lower.
Proof. intros x _. reflexivity. Qed.

Section NormalizerFacts.

Variable lower : string -> string.
Hypothesis lower_idempotent : lower_is_idempotent lower.
Hypothesis lower_survives : lower_survives_removal lower.

(** Neither lower-casing nor the removal of a separator changes a
    canonical name. *)
Lemma normalize_column_name_fixed (x : string) :
  let z := normalize_column_name lower x in
  lower z = z /\ Str.remove " " z = z /\ Str.remove "-" z = z /\ Str.remove "_" z = z.
Proof.
  unfold normalize_column_name; cbv zeta.
  repeat split.
  - repeat (apply lower_survives; [simpl; tauto|]). apply lower_idempotent.
  - do 2 apply remove_fixed_remove. apply remove_idem.
  - apply remove_fixed_remove. apply remove_idem.
  - apply remove_idem.
Qed.

(** C5: the column-name normalizer is idempotent,
    [normalize_column_name (normalize_column_name x) = normalize_column_name x]
    for every text [x]; of [str.lower] the proof uses that it is
    idempotent and that it does not change a text that it left unchanged
    once a space, a hyphen or an underscore is removed from it. *)
Theorem normalize_column_name_idempotent (x : string) :
  normalize_column_name lower (normalize_column_name lower x)
  = normalize_column_name lower x.
Proof.
  destruct (normalize_column_name_fixed x) as (Hl & Hs & Hh & Hu).
  unfold normalize_column_name at 1.
  now rewrite Hl, Hs, Hh, Hu.
Qed.

End NormalizerFacts.

Lemma normalize_column_name_idempotent_witness :
  normalize_column_name Reference.lower
    (normalize_column_name Reference.lower "Media Type")
  = normalize_column_name Reference.lower "Media Type".
Proof.
  apply (normalize_column_name_idempotent Reference.lower
           reference_lower_idempotent reference_lower_survives_removal).
Defined.

(** ** The script monad *)

Lemma bind_ret_l {A B : Type} (a : A) (k : A -> M B) : bind (ret a) k = k a.
Proof. unfold bind, ret. destruct (k a) as [w r]. reflexivity. Qed.

Lemma bind_emit {B : Type} (msg : message) (k : unit -> M B) :
  bind (emit msg) k = (msg :: output (k tt), outcome (k tt)).
Proof. unfold bind, emit, output, outcome. destruct (k tt) as [w r]. reflexivity. Qed.

Lemma bind_raise {A B : Type} (e : exception) (k : A -> M B) :
  bind (raise e) k = raise e.
Proof. reflexivity. Qed.

Lemma bind_stop {A B : Type} (k : A -> M B) : bind st_stop k = st_stop.
Proof. reflexivity. Qed.

(** ** Frames *)

Lemma select_map {A B : Type} (f : A -> B) (mask : list bool) (l : list A) :
  select mask (map f l) = map f (select mask l).
Proof.
  revert l. induction mask as [|b mask IH]; intros [|x l]; simpl; try reflexivity.
  destruct b; simpl; now rewrite IH.
Qed.

Lemma select_length {A : Type} (mask : list bool) (l : list A) :
  List.length mask = List.length l ->
  List.length (select mask l) = List.length (filter (fun b => b) mask).
Proof.
  revert l. induction mask as [|b mask IH]; intros [|x l] H; simpl in *;
    try reflexivity; try discriminate.
  destruct b; simpl; rewrite IH by lia; reflexivity.
Qed.

Lemma select_filter {A : Type} (p : A -> bool) (l : list A) :
  select (map p l) l = filter p l.
Proof.
  induction l as [|x l IH]; simpl; [reflexivity|].
  destruct (p x); now rewrite IH.
Qed.

Lemma mask_count (mask : list bool) :
  List.length mask =
  List.length (filter (fun b => b) mask) + List.length (filter negb mask).
Proof.
  induction mask as [|[] mask IH]; simpl; lia.
Qed.

Lemma columns_rename (f : string -> string) (df : DataFrame) :
  columns (rename_columns f df) = map f (columns df).
Proof. unfold columns, rename_columns; simpl. now rewrite !map_map. Qed.

Lemma has_column_In (df : DataFrame) (name : string) :
  has_column df name = true <-> In name (columns df).
Proof.
  unfold has_column. rewrite existsb_exists. split.
  - intros (x & Hx & E). apply String.eqb_eq in E. now subst.
  - intros H. exists name. split; [exact H | apply String.eqb_refl].
Qed.

(** A label that names one column only selects that column. *)
Lemma filter_label (l : list (string * list value)) (name : string) :
  NoDup (map fst l) -> In name (map fst l) ->
  exists col, filter (fun c => String.eqb (fst c) name) l = [(name, col)].
Proof.
  induction l as [|[n c] l IH]; simpl; intros Hnd Hin; [contradiction|].
  inversion Hnd as [|? ? Hnotin Hnd']; subst.
  destruct (String.eqb_spec n name) as [->|Hne].
  - exists c. f_equal.
    clear IH Hnd Hnd' Hin. induction l as [|[n' c'] l IH]; simpl; [reflexivity|].
    simpl in Hnotin. destruct (String.eqb_spec n' name) as [->|_].
    + exfalso. apply Hnotin. now left.
    + apply IH. intros H. apply Hnotin. now right.
  - destruct Hin as [E|Hin]; [contradiction|]. now apply IH.
Qed.

Lemma getitem_defined (df : DataFrame) (name : string) :
  NoDup (columns df) -> has_column df name = true ->
  exists col, getitem df name = ret col.
Proof.
  intros Hnd Hin. apply has_column_In in Hin.
  destruct (filter_label (cols df) name Hnd Hin) as [col E].
  exists col. unfold getitem. now rewrite E.
Qed.

Lemma getitem_take (df : DataFrame) (mask : list bool) (name : string) :
  getitem (take df mask) name =
  bind (getitem df name) (fun col => ret (select mask col)).
Proof.
  unfold getitem, take; simpl.
  assert (E : filter (fun c => String.eqb (fst c) name)
                (map (fun c => (fst c, select mask (snd c))) (cols df))
              = map (fun c => (fst c, select mask (snd c)))
                  (filter (fun c => String.eqb (fst c) name) (cols df))).
  { induction (cols df) as [|[n c] l IH]; simpl; [reflexivity|].
    destruct (String.eqb n name); simpl; now rewrite IH. }
  rewrite E.
  destruct (filter _ (cols df)) as [|c [|c' l]]; reflexivity.
Qed.

Lemma columns_take (df : DataFrame) (mask : list bool) :
  columns (take df mask) = columns df.
Proof. unfold columns, take; simpl. rewrite map_map. reflexivity. Qed.

Lemma cols_setitem (df : DataFrame) (name : string) (col : list value) :
  has_column df name = true ->
  cols (setitem df name col) =
  map (fun c => (fst c, if String.eqb (fst c) name then col else snd c)) (cols df).
Proof.
  intros H. unfold setitem; simpl. rewrite H.
  apply map_ext. intros [n c]; simpl.
  destruct (String.eqb_spec n name) as [->|_]; reflexivity.
Qed.

Lemma columns_setitem (df : DataFrame) (name : string) (col : list value) :
  has_column df name = true -> columns (setitem df name col) = columns df.
Proof.
  intros H. unfold columns. rewrite cols_setitem by exact H.
  rewrite map_map. reflexivity.
Qed.

Lemma has_column_ext (df df' : DataFrame) (name : string) :
  columns df' = columns df -> has_column df' name = has_column df name.
Proof. unfold has_column. now intros ->. Qed.

Lemma getitem_ret_filter (df : DataFrame) (name : string) (col : list value) :
  getitem df name = ret col ->
  filter (fun c => String.eqb (fst c) name) (cols df) = [(name, col)].
Proof.
  unfold getitem.
  destruct (filter _ (cols df)) as [|c [|c' l]] eqn:E; try discriminate.
  intros H. injection H as <-.
  assert (Hc : In c (filter (fun c => String.eqb (fst c) name) (cols df)))
    by (rewrite E; now left).
  apply filter_In in Hc. destruct Hc as [_ Hc]. apply String.eqb_eq in Hc.
  destruct c as [n x]. simpl in *. now subst.
Qed.

Lemma getitem_has_column (df : DataFrame) (name : string) (col : list value) :
  getitem df name = ret col -> has_column df name = true.
Proof.
  intros H. apply getitem_ret_filter in H.
  apply has_column_In. unfold columns.
  assert (Hc : In (name, col) (filter (fun c => String.eqb (fst c) name) (cols df)))
    by (rewrite H; now left).
  apply filter_In in Hc. destruct Hc as [Hc _].
  now apply (in_map fst) in Hc.
Qed.

Lemma getitem_In (df : DataFrame) (name : string) (col : list value)
    (c : string * list value) :
  getitem df name = ret col -> In c (cols df) -> fst c = name -> snd c = col.
Proof.
  intros H Hin Hname. apply getitem_ret_filter in H.
  assert (Hc : In c (filter (fun c => String.eqb (fst c) name) (cols df)))
    by (apply filter_In; split; [exact Hin | now apply String.eqb_eq]).
  rewrite H in Hc. destruct Hc as [<-|[]]. reflexivity.
Qed.

(** A lookup either finds its column or raises. *)
Lemma getitem_cases (df : DataFrame) (name : string) :
  (exists col, getitem df name = ret col) \/ (exists e, getitem df name = raise e).
Proof.
  unfold getitem. destruct (filter _ (cols df)) as [|c [|c' l]].
  - right. now exists (KeyError name).
  - left. now exists (snd c).
  - right. now exists (ValueError name).
Qed.

Lemma getitem_setitem_same (df : DataFrame) (name : string) (col0 col : list value) :
  getitem df name = ret col0 ->
  getitem (setitem df name col) name = ret col.
Proof.
  intros H. pose proof (getitem_has_column _ _ _ H) as Hin.
  apply getitem_ret_filter in H.
  unfold getitem. rewrite cols_setitem by exact Hin.
  assert (F : filter (fun c => String.eqb (fst c) name)
                (map (fun c => (fst c, if String.eqb (fst c) name then col else snd c))
                   (cols df))
              = map (fun c => (fst c, col))
                  (filter (fun c => String.eqb (fst c) name) (cols df))).
  { clear. induction (cols df) as [|[n c] l IH]; simpl; [reflexivity|].
    destruct (String.eqb n name); simpl; now rewrite IH. }
  rewrite F, H. reflexivity.
Qed.

Lemma getitem_setitem_other (df : DataFrame) (name other : string) (col : list value) :
  has_column df name = true -> other <> name ->
  getitem (setitem df name col) other = getitem df other.
Proof.
  intros Hin Hne. unfold getitem. rewrite cols_setitem by exact Hin.
  assert (F : filter (fun c => String.eqb (fst c) other)
                (map (fun c => (fst c, if String.eqb (fst c) name then col else snd c))
                   (cols df))
              = filter (fun c => String.eqb (fst c) other) (cols df)).
  { induction (cols df) as [|[n c] l IH]; simpl; [reflexivity|].
    destruct (String.eqb_spec n other) as [->|_]; simpl; [|exact IH].
    destruct (String.eqb_spec other name) as [->|_]; [contradiction|].
    now rewrite IH. }
  now rewrite F.
Qed.

Lemma getitem_column (df : DataFrame) (name : string) (col : list value) :
  getitem df name = ret col -> column df name = col.
Proof.
  unfold getitem, column.
  induction (cols df) as [|[n c] l IH]; simpl; [discriminate|].
  destruct (String.eqb n name); simpl; [|exact IH].
  destruct (filter _ l); [|discriminate].
  intros H. now injection H.
Qed.

Lemma column_unique (df : DataFrame) (c : string * list value) :
  NoDup (columns df) -> In c (cols df) -> column df (fst c) = snd c.
Proof.
  unfold columns, column.
  induction (cols df) as [|[n x] l IH]; simpl; intros Hnd Hin; [contradiction|].
  inversion Hnd as [|? ? Hnotin Hnd']; subst.
  destruct Hin as [<-|Hin]; simpl.
  - now rewrite String.eqb_refl.
  - destruct (String.eqb_spec n (fst c)) as [->|_].
    + exfalso. apply Hnotin. now apply in_map.
    + now apply IH.
Qed.

Lemma isna_of_datetime (t : option Z) : notna (of_datetime t) = is_some t.
Proof. now destruct t. Qed.

(** ** The schema check *)

Lemma bind_assoc {A B C : Type} (m : M A) (f : A -> M B) (g : B -> M C) :
  bind (bind m f) g = bind m (fun a => bind (f a) g).
Proof.
  destruct m as [w [a| |e]]; simpl; try reflexivity.
  destruct (f a) as [w' [b| |e]]; simpl; try reflexivity.
  destruct (g b) as [w'' r]. now rewrite app_assoc.
Qed.

Section CleanerFacts.

Variable lower : string -> string.
Variable to_datetime : list value -> list (option Z).
Variable to_numeric : value -> option number.
Variable cast_overflow : Q -> Z.

Lemma missing_columns_spec (df : DataFrame) (c : string) :
  In c (missing_columns lower df) <->
  In c expected_columns /\ ~ In c (map (normalize_column_name lower) (columns df)).
Proof.
  unfold missing_columns. rewrite filter_In, <- columns_rename.
  fold (normalized lower df). rewrite <- has_column_In.
  destruct (has_column (normalized lower df) c); simpl; intuition congruence.
Qed.

Lemma missing_columns_nil (df : DataFrame) (name : string) :
  missing_columns lower df = [] -> In name expected_columns ->
  has_column (normalized lower df) name = true.
Proof.
  intros Hall Hin. destruct (has_column (normalized lower df) name) eqn:E; [reflexivity|].
  assert (In name (missing_columns lower df)) as H
    by (apply filter_In; split; [exact Hin | now rewrite E]).
  rewrite Hall in H. contradiction.
Qed.

Lemma clean_data_stops (df : DataFrame) :
  missing_columns lower df <> [] ->
  clean_data lower to_datetime to_numeric cast_overflow df =
  ([st_subheader "2. Data Cleaning Summary";
    st_markdown cleaning_summary;
    st_info ("Original number of rows: " ++ Str.of_nat (len df));
    st_error ("Error: Missing required columns in CSV: "
              ++ Str.join ", " (missing_columns lower df)
              ++ ". Please ensure your CSV has 'Date', 'Platform', 'Sentiment', 'Location', 'Engagements', 'Media Type' columns.")],
   Stopped).
Proof.
  intros Hne. unfold clean_data.
  fold (normalized lower df). fold (missing_columns lower df).
  destruct (missing_columns lower df) as [|c l]; [contradiction|].
  rewrite !bind_emit. reflexivity.
Qed.

(** ** The cast to int64 *)

Lemma astype_int_cases (col : list number) :
  (exists numbers, astype_int cast_overflow col = ret numbers)
  \/ astype_int cast_overflow col = raise non_finite.
Proof.
  induction col as [|[q|b] col IH]; simpl.
  - left. now exists [].
  - destruct IH as [[numbers ->] | ->].
    + left. rewrite bind_ret_l. now eexists.
    + now right.
  - now right.
Qed.

(** Where the cast goes through, each cell has become its int64. *)
Lemma astype_int_coerced (col : list value) (numbers : list Z) :
  astype_int cast_overflow (map (fun v => fillna0 (to_numeric v)) col) = ret numbers ->
  Forall2 (coerced to_numeric cast_overflow) col numbers.
Proof.
  revert numbers. induction col as [|v col IH]; simpl; intros numbers H.
  - injection H as <-. constructor.
  - destruct (to_numeric v) as [[q|b]|] eqn:Ev; simpl in H; try discriminate.
    + destruct (astype_int_cases (map (fun v => fillna0 (to_numeric v)) col))
        as [[zs Hzs]|Hzs]; rewrite Hzs in H; [|discriminate].
      rewrite bind_ret_l in H. injection H as <-.
      constructor; [now apply coerced_finite | now apply IH].
    + destruct (astype_int_cases (map (fun v => fillna0 (to_numeric v)) col))
        as [[zs Hzs]|Hzs]; rewrite Hzs in H; [|discriminate].
      rewrite bind_ret_l in H. injection H as <-.
      constructor; [now apply coerced_missing | now apply IH].
Qed.

(** The cast goes through when no cell reads as an infinity. *)
Lemma astype_int_finite (col : list value) :
  (forall v b, In v col -> to_numeric v <> Some (Infinity b)) ->
  exists numbers,
    astype_int cast_overflow (map (fun v => fillna0 (to_numeric v)) col) = ret numbers.
Proof.
  induction col as [|v col IH]; simpl; intros H; [now exists []|].
  destruct IH as [zs Hzs]; [intros x b Hx; apply H; now right|].
  destruct (to_numeric v) as [[q|b]|] eqn:Ev; simpl.
  - rewrite Hzs, bind_ret_l. now eexists.
  - exfalso. apply (H v b); [now left | exact Ev].
  - rewrite Hzs, bind_ret_l. now eexists.
Qed.


(** ** The run of the cleaner *)

Lemma date_mask_notna (df : DataFrame) :
  map notna (map of_datetime (parsed_dates lower to_datetime df))
  = date_mask lower to_datetime df.
Proof. unfold date_mask. rewrite map_map. apply map_ext, isna_of_datetime. Qed.

Lemma getitem_dated (df : DataFrame) (date : list value) (name : string) :
  getitem (normalized lower df) "date" = ret date -> name <> "date" ->
  getitem (dated lower to_datetime df) name
  = bind (getitem (normalized lower df) name)
         (fun col => ret (select (date_mask lower to_datetime df) col)).
Proof.
  intros Edate Hne. unfold dated. rewrite getitem_take.
  now rewrite getitem_setitem_other by (exact (getitem_has_column _ _ _ Edate) || exact Hne).
Qed.

(** The run of the cleaner on an upload that has the six columns and one
    [date] column: what it writes up to the cast, then the cast and the
    report of success. *)
Lemma clean_data_after_dates (df : DataFrame) (date : list value) :
  missing_columns lower df = [] ->
  getitem (normalized lower df) "date" = ret date ->
  let rest :=
    bind (getitem (dated lower to_datetime df) "engagements") (fun engagements =>
    bind (astype_int cast_overflow (map (fun v => fillna0 (to_numeric v)) engagements))
      (fun numbers =>
    bind (emit (st_success
                  ("Successfully processed "
                   ++ Str.of_nat (len (cleaned lower to_datetime to_numeric cast_overflow df))
                   ++ " rows of data after cleaning.")))
      (fun _ => ret (setitem (dated lower to_datetime df) "engagements"
                       (map Int numbers))))) in
  clean_data lower to_datetime to_numeric cast_overflow df
  = (cleaning_preamble lower to_datetime to_numeric cast_overflow df ++ output rest,
     outcome rest).
Proof.
  intros Hall Edate rest.
  pose proof (getitem_column _ _ _ Edate) as Cdate.
  assert (ED : map of_datetime (to_datetime date)
               = map of_datetime (parsed_dates lower to_datetime df))
    by (unfold parsed_dates; now rewrite Cdate).
  assert (Edrop : dropna (setitem (normalized lower df) "date"
                            (map of_datetime (to_datetime date))) "date"
                  = ret (dated lower to_datetime df)).
  { unfold dropna. rewrite (getitem_setitem_same _ _ _ _ Edate), bind_ret_l.
    rewrite ED, date_mask_notna. reflexivity. }
  unfold clean_data.
  fold (normalized lower df). fold (missing_columns lower df). rewrite Hall.
  rewrite !bind_emit, bind_ret_l, Edate, bind_ret_l, Edrop, bind_ret_l.
  change (len (dated lower to_datetime df))
    with (len (cleaned lower to_datetime to_numeric cast_overflow df)).
  unfold cleaning_preamble.
  destruct (Nat.ltb (len (cleaned lower to_datetime to_numeric cast_overflow df)) (len df)).
  - rewrite bind_emit. cbn [output outcome fst snd app]. reflexivity.
  - rewrite bind_ret_l. cbn [output outcome fst snd app]. reflexivity.
Qed.

(** The cleaned table is the dated table with its engagements cast. *)
Lemma cleaned_dated (df : DataFrame) (date eng : list value) (numbers : list Z) :
  getitem (normalized lower df) "date" = ret date ->
  getitem (normalized lower df) "engagements" = ret eng ->
  astype_int cast_overflow
    (map (fun v => fillna0 (to_numeric v)) (select (date_mask lower to_datetime df) eng))
  = ret numbers ->
  setitem (dated lower to_datetime df) "engagements" (map Int numbers)
  = cleaned lower to_datetime to_numeric cast_overflow df.
Proof.
  intros Edate Eeng Hcast.
  pose proof (getitem_has_column _ _ _ Edate) as Hdate.
  assert (Eeng2 : getitem (dated lower to_datetime df) "engagements"
                  = ret (select (date_mask lower to_datetime df) eng)).
  { rewrite (getitem_dated df date "engagements" Edate) by discriminate.
    now rewrite Eeng, bind_ret_l. }
  pose proof (getitem_has_column _ _ _ Eeng2) as Heng2.
  unfold setitem at 1. rewrite Heng2. unfold cleaned. f_equal.
  unfold dated, take; cbn [cols]. unfold setitem. rewrite Hdate. cbn [cols].
  unfold normalized, rename_columns at 1; cbn [cols].
  rewrite !map_map. apply map_ext_in. intros [n c] Hin. cbn [fst snd].
  destruct (String.eqb_spec (normalize_column_name lower n) "date") as [E|NE].
  - cbn [fst snd]. rewrite E. reflexivity.
  - cbn [fst snd].
    destruct (String.eqb_spec (normalize_column_name lower n) "engagements") as [E|NE'];
      [|reflexivity].
    assert (Hin' : In (normalize_column_name lower n, c) (cols (normalized lower df))).
    { unfold normalized, rename_columns; cbn [cols].
      apply in_map_iff. exists (n, c). split; [reflexivity | exact Hin]. }
    pose proof (getitem_In _ _ _ _ Eeng Hin' E) as Hc. cbn [snd] in Hc.
    rewrite E, Hc. unfold cast_cells. now rewrite Hcast.
Qed.

(** The run when the cast goes through. *)
Lemma clean_data_run (df : DataFrame) (date eng : list value) (numbers : list Z) :
  missing_columns lower df = [] ->
  getitem (normalized lower df) "date" = ret date ->
  getitem (normalized lower df) "engagements" = ret eng ->
  astype_int cast_overflow
    (map (fun v => fillna0 (to_numeric v)) (select (date_mask lower to_datetime df) eng))
  = ret numbers ->
  clean_data lower to_datetime to_numeric cast_overflow df =
  (cleaning_report lower to_datetime to_numeric cast_overflow df,
   Ok (cleaned lower to_datetime to_numeric cast_overflow df)).
Proof.
  intros Hall Edate Eeng Hcast.
  rewrite (clean_data_after_dates df date Hall Edate).
  rewrite (getitem_dated df date "engagements" Edate) by discriminate.
  rewrite Eeng, !bind_ret_l, Hcast, bind_ret_l, bind_emit.
  cbn [output outcome ret fst snd].
  rewrite (cleaned_dated df date eng numbers Edate Eeng Hcast).
  reflexivity.
Qed.

(** The run when the cast raises. *)
Lemma clean_data_cast_raises (df : DataFrame) (date eng : list value) :
  missing_columns lower df = [] ->
  getitem (normalized lower df) "date" = ret date ->
  getitem (normalized lower df) "engagements" = ret eng ->
  astype_int cast_overflow
    (map (fun v => fillna0 (to_numeric v)) (select (date_mask lower to_datetime df) eng))
  = raise non_finite ->
  clean_data lower to_datetime to_numeric cast_overflow df =
  (cleaning_preamble lower to_datetime to_numeric cast_overflow df, Raised non_finite).
Proof.
  intros Hall Edate Eeng Hcast.
  rewrite (clean_data_after_dates df date Hall Edate).
  rewrite (getitem_dated df date "engagements" Edate) by discriminate.
  rewrite Eeng, !bind_ret_l, Hcast.
  cbn [bind raise output outcome fst snd]. now rewrite app_nil_r.
Qed.

(** The run when the [engagements] column is not one column. *)
Lemma clean_data_lookup_raises (df : DataFrame) (date : list value) (e : exception) :
  missing_columns lower df = [] ->
  getitem (normalized lower df) "date" = ret date ->
  getitem (normalized lower df) "engagements" = raise e ->
  clean_data lower to_datetime to_numeric cast_overflow df =
  (cleaning_preamble lower to_datetime to_numeric cast_overflow df, Raised e).
Proof.
  intros Hall Edate Eeng.
  rewrite (clean_data_after_dates df date Hall Edate).
  rewrite (getitem_dated df date "engagements" Edate) by discriminate.
  rewrite Eeng. cbn [bind raise output outcome fst snd]. now rewrite app_nil_r.
Qed.

(** The run when the [date] column is not one column. *)
Lemma clean_data_date_raises (df : DataFrame) (e : exception) :
  missing_columns lower df = [] ->
  getitem (normalized lower df) "date" = raise e ->
  clean_data lower to_datetime to_numeric cast_overflow df =
  ([st_subheader "2. Data Cleaning Summary";
    st_markdown cleaning_summary;
    st_info ("Original number of rows: " ++ Str.of_nat (len df))],
   Raised e).
Proof.
  intros Hall Edate. unfold clean_data.
  fold (normalized lower df). fold (missing_columns lower df). rewrite Hall.
  rewrite !bind_emit, bind_ret_l, Edate. reflexivity.
Qed.


(** The same, for an upload without collision of names and without
    infinite engagements among the rows kept. *)
Lemma clean_data_returns (df : DataFrame) :
  missing_columns lower df = [] -> no_collision lower df ->
  (forall v b, In v (kept_engagements lower to_datetime df) ->
               to_numeric v <> Some (Infinity b)) ->
  clean_data lower to_datetime to_numeric cast_overflow df =
  (cleaning_report lower to_datetime to_numeric cast_overflow df,
   Ok (cleaned lower to_datetime to_numeric cast_overflow df)).
Proof.
  intros Hall Hnd Hfinite.
  assert (Hdate : has_column (normalized lower df) "date" = true)
    by (apply missing_columns_nil; [exact Hall | simpl; tauto]).
  assert (Heng : has_column (normalized lower df) "engagements" = true)
    by (apply missing_columns_nil; [exact Hall | simpl; tauto]).
  destruct (getitem_defined _ _ Hnd Hdate) as [date Edate].
  destruct (getitem_defined _ _ Hnd Heng) as [eng Eeng].
  unfold kept_engagements in Hfinite. rewrite (getitem_column _ _ _ Eeng) in Hfinite.
  destruct (astype_int_finite _ Hfinite) as [numbers Hcast].
  exact (clean_data_run df date eng numbers Hall Edate Eeng Hcast).
Qed.

(** An upload that the cleaner hands back had the six columns, with [date]
    and [engagements] each under one name, and no infinite engagement among
    the rows kept. *)
Lemma clean_data_inversion (df df' : DataFrame) :
  outcome (clean_data lower to_datetime to_numeric cast_overflow df) = Ok df' ->
  missing_columns lower df = []
  /\ (exists date, getitem (normalized lower df) "date" = ret date)
  /\ (exists eng, getitem (normalized lower df) "engagements" = ret eng)
  /\ (exists numbers,
        astype_int cast_overflow (kept_numbers lower to_datetime to_numeric df)
        = ret numbers)
  /\ clean_data lower to_datetime to_numeric cast_overflow df
     = (cleaning_report lower to_datetime to_numeric cast_overflow df,
        Ok (cleaned lower to_datetime to_numeric cast_overflow df)).
Proof.
  intros H.
  destruct (missing_columns lower df) as [|c l] eqn:Hall.
  2:{ rewrite clean_data_stops in H by (rewrite Hall; discriminate). discriminate. }
  destruct (getitem_cases (normalized lower df) "date") as [[date Edate]|[e Edate]].
  2:{ rewrite (clean_data_date_raises df e Hall Edate) in H. discriminate. }
  destruct (getitem_cases (normalized lower df) "engagements") as [[eng Eeng]|[e Eeng]].
  2:{ rewrite (clean_data_lookup_raises df date e Hall Edate Eeng) in H. discriminate. }
  destruct (astype_int_cases
              (map (fun v => fillna0 (to_numeric v))
                 (select (date_mask lower to_datetime df) eng)))
    as [[numbers Hcast]|Hcast].
  2:{ rewrite (clean_data_cast_raises df date eng Hall Edate Eeng Hcast) in H.
      discriminate. }
  split; [reflexivity|]. split; [now exists date|]. split; [now exists eng|].
  split.
  - exists numbers. unfold kept_numbers, kept_engagements.
    now rewrite (getitem_column _ _ _ Eeng).
  - exact (clean_data_run df date eng numbers Hall Edate Eeng Hcast).
Qed.

End CleanerFacts.

Example iso_dates :
  Reference.to_datetime [Text "2024-01-01"; Text "not-a-date"; Text "2024-01-03"]
  = [Some 1704067200000000000%Z; None; Some 1704240000000000000%Z].
Proof. reflexivity. Qed.

Example decimals :
  map Reference.to_numeric [Text "5"; Text ""; Text "abc"; Text "-3"; Text "5.75"; NaN]
  = [Some (Finite (5 # 1)); None; None; Some (Finite (-3 # 1));
     Some (Finite (575 # 100)); None].
Proof. reflexivity. Qed.

Example period_2024 : Reference.period_str 19723 = "2024-01-01".
Proof. reflexivity. Qed.

Section SchemaCheck.

Variable lower : string -> string.
Variable to_datetime : list value -> list (option Z).
Variable to_numeric : value -> option number.
Variable cast_overflow : Q -> Z.
Variable sort_values : list (value * Z) -> list (value * Z).
Variable period_str : Z -> string.
Variable GEMINI_API_KEY : string.
Variable post : string -> json -> exchange.
Variable str_exception : exception -> string.
Variable read_csv : string -> exception + DataFrame.
Variable to_dict_records : list string -> list (value * Z) -> string.
Variable str_json : json -> string.

(** C2: when one of the six canonical columns is absent after the names
    are normalized, the cleaner writes one error, whose text lists the
    missing columns and no other, in the order of the schema and separated
    by a comma and a space, and stops the run: [clean_data] hands back no
    table, and the script, stopped at the same point, shows no chart. *)
Theorem missing_columns_are_fatal (file : string) (df : DataFrame) :
  read_csv file = inr df ->
  (exists c, In c expected_columns
             /\ ~ In c (map (normalize_column_name lower) (columns df))) ->
  let run := clean_data lower to_datetime to_numeric cast_overflow df in
  let page := script lower to_datetime to_numeric cast_overflow sort_values period_str GEMINI_API_KEY
                post str_exception read_csv to_dict_records str_json (Some file) in
  outcome run = Stopped
  /\ (exists before,
        output run
        = before
          ++ [st_error ("Error: Missing required columns in CSV: "
                        ++ Str.join ", " (missing_columns lower df)
                        ++ ". Please ensure your CSV has 'Date', 'Platform', 'Sentiment', 'Location', 'Engagements', 'Media Type' columns.")]
        /\ filter is_error before = [])
  /\ (forall c, In c (missing_columns lower df) <->
                In c expected_columns /\ ~ In c (map (normalize_column_name lower) (columns df)))
  /\ NoDup (missing_columns lower df)
  /\ outcome page = Stopped
  /\ filter is_chart (output page) = [].
Proof.
  intros Hread (c & Hc & Habs) run page.
  assert (Hne : missing_columns lower df <> []).
  { intros E. pose proof (proj2 (missing_columns_spec lower df c) (conj Hc Habs)) as H.
    rewrite E in H. contradiction. }
  pose proof (clean_data_stops lower to_datetime to_numeric cast_overflow df Hne) as Hrun.
  fold run in Hrun.
  assert (Epage : output page = output run /\ outcome page = Stopped).
  { unfold page, script, upload. rewrite Hread, bind_ret_l.
    fold run. rewrite Hrun. split; reflexivity. }
  destruct Epage as [Eout Estop].
  split; [|split; [|split; [|split; [|split]]]].
  - now rewrite Hrun.
  - rewrite Hrun. cbn [output fst].
    exists [st_subheader "2. Data Cleaning Summary"; st_markdown cleaning_summary;
            st_info ("Original number of rows: " ++ Str.of_nat (len df))].
    split; reflexivity.
  - apply missing_columns_spec.
  - unfold missing_columns. apply NoDup_filter.
    unfold expected_columns.
    repeat (constructor; [simpl; intuition discriminate|]). constructor.
  - exact Estop.
  - rewrite Eout, Hrun. reflexivity.
Qed.

End SchemaCheck.

Lemma missing_columns_are_fatal_witness :
  outcome (clean_data Reference.lower Reference.to_datetime Reference.to_numeric Reference.cast_overflow Uploads.no_location)
  = Stopped
  /\ In (st_error
       "Error: Missing required columns in CSV: location, mediatype. Please ensure your CSV has 'Date', 'Platform', 'Sentiment', 'Location', 'Engagements', 'Media Type' columns.")
       (output (clean_data Reference.lower Reference.to_datetime Reference.to_numeric Reference.cast_overflow Uploads.no_location)).
Proof.
  destruct (missing_columns_are_fatal
              Reference.lower Reference.to_datetime Reference.to_numeric Reference.cast_overflow Reference.sort_values
              Reference.period_str placeholder_key Uploads.server_error
              Reference.str_exception Uploads.read_csv Reference.to_dict_records
              Reference.str_json "no_location.csv" Uploads.no_location)
    as (Hstop & (before & Hout & _) & _).
  - reflexivity.
  - exists "location". split; [simpl; tauto|].
    simpl. intuition discriminate.
  - split; [exact Hstop|]. rewrite Hout. apply in_or_app. right. left. reflexivity.
Defined.

(** ** The cleaned table *)

Lemma filter_map_comm {A B : Type} (p : B -> bool) (f : A -> B) (l : list A) :
  filter p (map f l) = map f (filter (fun x => p (f x)) l).
Proof.
  induction l as [|x l IH]; simpl; [reflexivity|].
  destruct (p (f x)); simpl; now rewrite IH.
Qed.

Lemma select_successes (l : list (option Z)) :
  select (map is_some l) (map of_datetime l) = map Timestamp (successes l).
Proof.
  induction l as [|[t|] l IH]; simpl; [reflexivity| |]; now rewrite IH.
Qed.

Lemma successes_length (l : list (option Z)) :
  List.length (successes l) = List.length (filter (fun b => b) (map is_some l)).
Proof.
  induction l as [|[t|] l IH]; simpl; [reflexivity| |]; now rewrite IH.
Qed.

Lemma forallb_map_Timestamp (l : list Z) :
  forallb is_timestamp (map Timestamp l) = true.
Proof. induction l; simpl; auto. Qed.

Section CleanedTable.

Variable lower : string -> string.
Variable to_datetime : list value -> list (option Z).
Variable to_numeric : value -> option number.
Variable cast_overflow : Q -> Z.

(** The column of the cleaned table under a canonical name. *)
Lemma getitem_cleaned (df : DataFrame) (name : string) (col : list value) :
  getitem (normalized lower df) name = ret col ->
  getitem (cleaned lower to_datetime to_numeric cast_overflow df) name =
  ret (if String.eqb name "date"
       then map Timestamp (successes (parsed_dates lower to_datetime df))
       else if String.eqb name "engagements"
       then cast_cells to_numeric cast_overflow (select (date_mask lower to_datetime df) col)
       else select (date_mask lower to_datetime df) col).
Proof.
  intros H. apply getitem_ret_filter in H.
  unfold normalized, rename_columns in H; cbn [cols] in H.
  rewrite filter_map_comm in H. cbn [fst] in H.
  unfold getitem, cleaned; cbn [cols].
  rewrite filter_map_comm. cbn [fst].
  destruct (filter _ (cols df)) as [|[n c] [|c' l]]; try discriminate.
  cbn [map fst snd] in *. injection H as En Ec. subst col. rewrite En.
  unfold ret. do 2 f_equal.
  destruct (String.eqb name "date"); [|reflexivity].
  unfold date_mask. apply select_successes.
Qed.

Lemma columns_cleaned (df : DataFrame) :
  columns (cleaned lower to_datetime to_numeric cast_overflow df) = map (normalize_column_name lower) (columns df).
Proof. unfold columns, cleaned; cbn [cols]. now rewrite !map_map. Qed.

Lemma forallb_map_Int (l : list Z) : forallb is_int (map Int l) = true.
Proof. induction l; simpl; auto. Qed.

Lemma forallb_cast_cells (l : list value) :
  forallb is_int (cast_cells to_numeric cast_overflow l) = true.
Proof.
  unfold cast_cells.
  destruct (outcome _); [apply forallb_map_Int | reflexivity | reflexivity].
Qed.

(** C1 (as amended): every table that the cleaner hands back has a time
    stamp in every [date] cell and an integer, of either sign, in every
    [engagements] cell; its dates are the readings that succeeded, in order,
    and its rows are the rows of the upload whose date parsed: a row whose
    date did not parse is gone, not defaulted. *)
Theorem cleaned_table_invariant (df df' : DataFrame) :
  outcome (clean_data lower to_datetime to_numeric cast_overflow df) = Ok df' ->
  valid_dates df'
  /\ integer_engagements df'
  /\ getitem df' "date" = ret (map Timestamp (successes (parsed_dates lower to_datetime df)))
  /\ index df' = select (map is_some (parsed_dates lower to_datetime df)) (index df).
Proof.
  intros H.
  destruct (clean_data_inversion _ _ _ _ _ _ H)
    as (Hall & [date Edate] & [eng Eeng] & _ & Hrun).
  rewrite Hrun in H.
  cbn [outcome snd] in H. injection H as <-.
  pose proof (getitem_cleaned df "date" date Edate) as Gdate.
  pose proof (getitem_cleaned df "engagements" eng Eeng) as Geng.
  cbn [String.eqb Ascii.eqb Bool.eqb] in Gdate, Geng.
  repeat split.
  - eexists. split; [exact Gdate|]. apply forallb_map_Timestamp.
  - eexists. split; [exact Geng|]. apply forallb_cast_cells.
  - exact Gdate.
Qed.

End CleanedTable.

Lemma cleaned_table_invariant_witness :
  valid_dates (cleaned Reference.lower Reference.to_datetime Reference.to_numeric Reference.cast_overflow Uploads.dates)
  /\ integer_engagements (cleaned Reference.lower Reference.to_datetime Reference.to_numeric Reference.cast_overflow Uploads.dates)
  /\ index (cleaned Reference.lower Reference.to_datetime Reference.to_numeric Reference.cast_overflow Uploads.dates) = [0; 2]%nat.
Proof.
  destruct (cleaned_table_invariant Reference.lower Reference.to_datetime Reference.to_numeric Reference.cast_overflow
              Uploads.dates
              (cleaned Reference.lower Reference.to_datetime Reference.to_numeric Reference.cast_overflow Uploads.dates))
    as (Hd & He & _ & Hi).
  - reflexivity.
  - split; [exact Hd|]. split; [exact He|]. exact Hi.
Defined.

(** The claim C1 as the specification states it fails on an upload with a
    negative engagement count: the cleaner hands the table back, with valid
    dates, and with [-3] in its last row. *)
Lemma negative_engagements_survive :
  exists df',
    outcome (clean_data Reference.lower Reference.to_datetime Reference.to_numeric Reference.cast_overflow Uploads.engagements)
    = Ok df'
    /\ valid_dates df'
    /\ getitem df' "engagements" = ret [Int 5; Int 0; Int 0; Int (-3)]
    /\ ~ nonnegative_engagements df'.
Proof.
  eexists. split; [reflexivity|]. split; [|split].
  - eexists. split; reflexivity.
  - reflexivity.
  - intros (col & Hcol & Hall). vm_compute in Hcol.
    injection Hcol as <-. discriminate Hall.
Qed.

(** ** Date filtering *)

Lemma getitem_length (df : DataFrame) (name : string) (col : list value) :
  well_formed df -> getitem df name = ret col -> List.length col = len df.
Proof.
  intros Hwf H. apply getitem_ret_filter in H.
  assert (Hin : In (name, col) (cols df)).
  { assert (Hc : In (name, col) (filter (fun c => String.eqb (fst c) name) (cols df)))
      by (rewrite H; now left).
    now apply filter_In in Hc. }
  unfold well_formed in Hwf. rewrite Forall_forall in Hwf.
  exact (Hwf _ Hin).
Qed.

Lemma well_formed_normalized (lower : string -> string) (df : DataFrame) :
  well_formed df -> well_formed (normalized lower df).
Proof.
  unfold well_formed, normalized, rename_columns, len; cbn [cols index].
  intros H. apply Forall_map. cbn [snd]. exact H.
Qed.

Lemma filter_is_some_mask {A : Type} (l : list (option A)) :
  List.length (filter (fun b => b) (map is_some l)) = List.length (filter is_some l)
  /\ List.length (filter negb (map is_some l))
     = List.length (filter (fun t => negb (is_some t)) l).
Proof.
  induction l as [|[a|] l [IH1 IH2]]; simpl; auto.
Qed.

Section DateFiltering.

Variable lower : string -> string.
Variable to_datetime : list value -> list (option Z).
Variable to_numeric : value -> option number.
Variable cast_overflow : Q -> Z.

(** The count of rows kept and of rows dropped. *)
Lemma len_cleaned (df : DataFrame) (date : list value) :
  (forall col, List.length (to_datetime col) = List.length col) ->
  well_formed df ->
  getitem (normalized lower df) "date" = ret date ->
  len (cleaned lower to_datetime to_numeric cast_overflow df)
  = List.length (filter is_some (parsed_dates lower to_datetime df))
  /\ len df = len (cleaned lower to_datetime to_numeric cast_overflow df) + dropped_rows lower to_datetime df.
Proof.
  intros Hlen Hwf Edate.
  assert (Hmask : List.length (date_mask lower to_datetime df) = List.length (index df)).
  { unfold date_mask, parsed_dates. rewrite length_map, Hlen.
    rewrite (getitem_column _ _ _ Edate).
    exact (getitem_length _ _ _ (well_formed_normalized _ _ Hwf) Edate). }
  assert (E : len (cleaned lower to_datetime to_numeric cast_overflow df)
              = List.length (filter (fun b => b) (date_mask lower to_datetime df))).
  { unfold len, cleaned; cbn [index]. now apply select_length. }
  split.
  - rewrite E. unfold date_mask. apply filter_is_some_mask.
  - rewrite E. unfold dropped_rows. unfold len at 1. rewrite <- Hmask.
    apply mask_count.
Qed.


End DateFiltering.

Lemma well_formed_dates : well_formed Uploads.dates.
Proof. unfold well_formed. repeat constructor. Qed.

Lemma reference_to_datetime_length (col : list value) :
  List.length (Reference.to_datetime col) = List.length col.
Proof. apply length_map. Qed.


(** ** Engagement coercion *)




Lemma fits_int64_spec (z : Z) :
  fits_int64 z = true <-> (- 9223372036854775808 <= z <= 9223372036854775807)%Z.
Proof.
  unfold fits_int64, min_int64, max_int64.
  change (2 ^ 63)%Z with 9223372036854775808%Z.
  rewrite andb_true_iff, !Z.leb_le. lia.
Qed.


(** An int64 is its own wrap-around. *)
Lemma wrap64_id (z : Z) : fits_int64 z = true -> wrap64 z = z.
Proof.
  intros H. apply fits_int64_spec in H. unfold wrap64, min_int64.
  change (2 ^ 63)%Z with 9223372036854775808%Z.
  change (2 ^ 64)%Z with 18446744073709551616%Z.
  rewrite Z.mod_small by lia. lia.
Qed.




Lemma select_combine {A B : Type} (mask : list bool) (a : list A) (b : list B) :
  select mask (combine a b) = combine (select mask a) (select mask b).
Proof.
  revert a b. induction mask as [|m mask IH]; intros [|x a] [|y b]; simpl;
    try reflexivity.
  - destruct m; simpl; [reflexivity|]. symmetry. apply combine_nil.
  - destruct m; simpl; now rewrite IH.
Qed.

Section Coercion.

Variable lower : string -> string.
Variable to_datetime : list value -> list (option Z).
Variable to_numeric : value -> option number.
Variable cast_overflow : Q -> Z.



(** C9: in every table that the cleaner hands back, the columns are those
    of the upload, all of them and in their order, under their canonical
    names; a column other than [date] and [engagements], required or not,
    holds, for the rows kept, the cells it held in the upload, row label by
    row label. *)
Theorem other_columns_are_untouched (df df' : DataFrame) :
  outcome (clean_data lower to_datetime to_numeric cast_overflow df) = Ok df' ->
  let mask := map is_some (parsed_dates lower to_datetime df) in
  columns df' = map (normalize_column_name lower) (columns df)
  /\ index df' = select mask (index df)
  /\ (forall i name col,
        nth_error (cols df) i = Some (name, col) ->
        normalize_column_name lower name <> "date" ->
        normalize_column_name lower name <> "engagements" ->
        nth_error (cols df') i = Some (normalize_column_name lower name, select mask col)
        /\ combine (index df') (select mask col)
           = select mask (combine (index df) col)).
Proof.
  intros H mask.
  destruct (clean_data_inversion _ _ _ _ _ _ H) as (_ & _ & _ & _ & Hrun).
  rewrite Hrun in H. cbn [outcome snd] in H. injection H as <-.
  split; [apply columns_cleaned|].
  split; [reflexivity|].
  intros i name col Hi Hdate Heng. split.
  - unfold cleaned; cbn [cols]. rewrite nth_error_map, Hi. cbn [option_map fst snd].
    apply String.eqb_neq in Hdate, Heng. now rewrite Hdate, Heng.
  - unfold cleaned; cbn [index]. fold mask. symmetry. apply select_combine.
Qed.

End Coercion.



Lemma other_columns_are_untouched_witness :
  columns (cleaned Reference.lower Reference.to_datetime Reference.to_numeric
             Reference.cast_overflow Uploads.engagements)
  = ["date"; "platform"; "sentiment"; "location"; "engagements"; "mediatype"; "author"]
  /\ nth_error (cols (cleaned Reference.lower Reference.to_datetime Reference.to_numeric
                        Reference.cast_overflow Uploads.engagements)) 6
     = Some ("author", [Text "ani"; Text "budi"; NaN; Text "citra"]).
Proof.
  destruct (other_columns_are_untouched Reference.lower Reference.to_datetime
              Reference.to_numeric Reference.cast_overflow Uploads.engagements
              (cleaned Reference.lower Reference.to_datetime Reference.to_numeric
                 Reference.cast_overflow Uploads.engagements) eq_refl)
    as (Hcols & _ & Hframe).
  split; [exact Hcols|].
  refine (proj1 (Hframe 6%nat "Author" _ eq_refl _ _)); discriminate.
Defined.

(** ** The aggregator *)

Lemma value_eqb_spec (a b : value) : reflect (a = b) (value_eqb a b).
Proof.
  destruct a, b; simpl; try (constructor; congruence).
  - destruct (String.eqb_spec s s0); constructor; congruence.
  - destruct (Z.eqb_spec z z0); constructor; congruence.
  - destruct (Z.eqb_spec ns ns0); constructor; congruence.
  - destruct (Z.eqb_spec day day0); constructor; congruence.
Qed.

Lemma unique_In (l : list value) (k : value) : In k (unique l) <-> In k l.
Proof.
  induction l as [|x l IH]; simpl; [tauto|].
  rewrite filter_In, IH.
  destruct (value_eqb_spec k x) as [->|Hne]; simpl; intuition congruence.
Qed.

Lemma unique_NoDup (l : list value) : NoDup (unique l).
Proof.
  induction l as [|x l IH]; simpl; constructor.
  - rewrite filter_In. intros [_ H].
    destruct (value_eqb_spec x x); [discriminate | congruence].
  - now apply NoDup_filter.
Qed.

Lemma insert_key_perm (k : value) (l : list value) :
  Permutation (insert_key k l) (k :: l).
Proof.
  induction l as [|x l IH]; simpl; [reflexivity|].
  destruct (value_leb k x); [reflexivity|].
  rewrite IH. apply perm_swap.
Qed.

Lemma sort_keys_perm (l : list value) : Permutation (sort_keys l) l.
Proof.
  induction l as [|x l IH]; simpl; [reflexivity|].
  rewrite insert_key_perm. now constructor.
Qed.

Lemma map_fst_pair {A B : Type} (f : A -> B) (l : list A) :
  map fst (map (fun k => (k, f k)) l) = l.
Proof. rewrite map_map. simpl. apply map_id. Qed.

Lemma In_pair_map {A B : Type} (f : A -> B) (l : list A) (k : A) (n : B) :
  In (k, n) (map (fun k => (k, f k)) l) <-> In k l /\ n = f k.
Proof.
  rewrite in_map_iff. split.
  - intros (x & E & Hx). injection E as -> <-. now split.
  - intros [Hk ->]. now exists k.
Qed.

Lemma wrap64_add_r (a s : Z) : wrap64 (a + wrap64 s) = wrap64 (a + s).
Proof.
  unfold wrap64. f_equal.
  replace (a + ((s - min_int64) mod 2 ^ 64 + min_int64) - min_int64)%Z
    with (a + (s - min_int64) mod 2 ^ 64)%Z by lia.
  rewrite Z.add_mod_idemp_r by lia. f_equal. lia.
Qed.

(** Adding in int64 gives the sum, wrapped around once. *)
Lemma sum64_wrap (l : list Z) : sum64 l = wrap64 (sum l).
Proof.
  induction l as [|a l IH]; simpl; [reflexivity|].
  unfold add64. now rewrite IH, wrap64_add_r.
Qed.

(** The grouped sums: one row per key that is not missing. *)
Lemma groupby_sum_keys (keys : list value) (vals : list Z) :
  NoDup (map fst (groupby_sum keys vals))
  /\ forall k n, In (k, n) (groupby_sum keys vals) <->
                 (In k keys /\ notna k = true)
                 /\ n = wrap64 (sum_where k keys vals).
Proof.
  unfold groupby_sum. split.
  - rewrite map_fst_pair.
    apply (Permutation_NoDup (Permutation_sym (sort_keys_perm _))).
    apply unique_NoDup.
  - intros k n. rewrite In_pair_map.
    assert (H : In k (sort_keys (unique (filter notna keys)))
                <-> In k keys /\ notna k = true).
    { split; intros Hk.
      - apply (Permutation_in _ (sort_keys_perm _)) in Hk.
        apply (proj1 (unique_In _ _)) in Hk. now apply (proj1 (filter_In _ _ _)) in Hk.
      - apply (Permutation_in _ (Permutation_sym (sort_keys_perm _))).
        apply (proj2 (unique_In _ _)). now apply (proj2 (filter_In _ _ _)). }
    rewrite H, sum64_wrap. reflexivity.
Qed.

Lemma descending_strongly (l : list (value * Z)) :
  descending l -> StronglySorted (fun a b => (snd b <= snd a)%Z) l.
Proof.
  apply Sorted_StronglySorted. intros a b c Hab Hbc. lia.
Qed.


Lemma insert_desc_perm (r : value * Z) (l : list (value * Z)) :
  Permutation (Reference.insert_desc r l) (r :: l).
Proof.
  induction l as [|x l IH]; simpl; [reflexivity|].
  destruct (Z.leb (snd x) (snd r)); [reflexivity|].
  rewrite IH. apply perm_swap.
Qed.

Lemma insert_desc_descending (r : value * Z) (l : list (value * Z)) :
  descending l -> descending (Reference.insert_desc r l).
Proof.
  unfold descending. induction l as [|x l IH]; simpl; intros H.
  - repeat constructor.
  - destruct (Z.leb_spec (snd x) (snd r)) as [Hle|Hgt].
    + constructor; [exact H|]. constructor. exact Hle.
    + inversion H as [|? ? Hs Hd]; subst. constructor; [now apply IH|].
      destruct l as [|y l]; simpl.
      * constructor. lia.
      * destruct (Z.leb (snd y) (snd r)); constructor;
          [lia | now inversion Hd].
Qed.

(** The reference sort is a sort. *)
Lemma reference_sorts : sorts Reference.sort_values.
Proof.
  intros l. unfold Reference.sort_values. induction l as [|x l [IHp IHs]]; simpl.
  - split; [reflexivity | constructor].
  - split.
    + rewrite insert_desc_perm. now constructor.
    + now apply insert_desc_descending.
Qed.

Lemma Permutation_NoDup_map {A B : Type} (f : A -> B) (l l' : list A) :
  Permutation l l' -> NoDup (map f l') -> NoDup (map f l).
Proof.
  intros Hp. apply Permutation_NoDup, Permutation_map, Permutation_sym, Hp.
Qed.

Section Views.

Variable sort_values : list (value * Z) -> list (value * Z).
Hypothesis sort_values_sorts : sorts sort_values.

(** The counts of a column: one row per cell value that is not missing,
    with the number of its occurrences, in descending order. *)
Lemma value_counts_spec (col : list value) :
  let counts := value_counts sort_values col in
  NoDup (map fst counts)
  /\ (forall k, In k (map fst counts) <-> In k col /\ notna k = true)
  /\ (forall k n, In (k, n) counts -> n = count k col /\ (1 <= n)%Z)
  /\ descending counts.
Proof.
  cbv zeta. unfold value_counts.
  set (rows := map (fun k => (k, count k col)) (unique (filter notna col))).
  destruct (sort_values_sorts rows) as [Hperm Hdesc].
  assert (Hfst : map fst rows = unique (filter notna col)) by apply map_fst_pair.
  split; [|split; [|split]].
  - apply (Permutation_NoDup_map fst _ _ Hperm). rewrite Hfst. apply unique_NoDup.
  - intros k.
    assert (E : In k (map fst (sort_values rows)) <-> In k (map fst rows)).
    { split; apply Permutation_in; [|apply Permutation_sym];
        apply Permutation_map, Hperm. }
    rewrite E, Hfst, unique_In, filter_In. reflexivity.
  - intros k n Hin. apply (Permutation_in _ Hperm) in Hin.
    unfold rows in Hin. apply In_pair_map in Hin. destruct Hin as [Hk ->].
    split; [reflexivity|].
    apply (proj1 (unique_In _ _)) in Hk. apply filter_In in Hk. destruct Hk as [Hk _].
    unfold count.
    assert (Hin : In k (filter (value_eqb k) col)).
    { apply filter_In. split; [exact Hk|]. now destruct (value_eqb_spec k k). }
    destruct (filter (value_eqb k) col); [contradiction|]. simpl List.length. lia.
  - exact Hdesc.
Qed.

(** C10: the sentiment breakdown and the media-type mix of a table hold
    one row per distinct value of the column, missing cells apart, each
    with the number of rows that carry the value, and are ordered by
    non-increasing count. *)
Theorem category_counts (df : DataFrame) (sentiment mediatype : list value) :
  empty df = false ->
  getitem df "sentiment" = ret sentiment ->
  getitem df "mediatype" = ret mediatype ->
  exists by_sentiment by_mediatype,
    sentiment_counts sort_values df = ret by_sentiment
    /\ mediatype_counts sort_values df = ret by_mediatype
    /\ NoDup (map fst by_sentiment)
    /\ (forall k, In k (map fst by_sentiment) <-> In k sentiment /\ notna k = true)
    /\ (forall k n, In (k, n) by_sentiment -> n = count k sentiment /\ (1 <= n)%Z)
    /\ descending by_sentiment
    /\ NoDup (map fst by_mediatype)
    /\ (forall k, In k (map fst by_mediatype) <-> In k mediatype /\ notna k = true)
    /\ (forall k n, In (k, n) by_mediatype -> n = count k mediatype /\ (1 <= n)%Z)
    /\ descending by_mediatype.
Proof.
  intros _ Hs Hm.
  exists (value_counts sort_values sentiment), (value_counts sort_values mediatype).
  destruct (value_counts_spec sentiment) as (S1 & S2 & S3 & S4).
  destruct (value_counts_spec mediatype) as (M1 & M2 & M3 & M4).
  unfold sentiment_counts, mediatype_counts. rewrite Hs, Hm, !bind_ret_l.
  repeat (split; [reflexivity || assumption|]). assumption.
Qed.

End Views.


Section TopLocations.

Variable sort_values : list (value * Z) -> list (value * Z).
Hypothesis sort_values_sorts : sorts sort_values.


End TopLocations.


Lemma category_counts_witness :
  sentiment_counts Reference.sort_values
    (cleaned Reference.lower Reference.to_datetime Reference.to_numeric Reference.cast_overflow Uploads.engagements)
  = ret [(Text "positive", 2); (Text "negative", 1)]%Z
  /\ mediatype_counts Reference.sort_values
       (cleaned Reference.lower Reference.to_datetime Reference.to_numeric Reference.cast_overflow Uploads.engagements)
     = ret [(Text "text", 2); (Text "video", 1); (Text "image", 1)]%Z.
Proof.
  destruct (category_counts Reference.sort_values reference_sorts
              (cleaned Reference.lower Reference.to_datetime Reference.to_numeric Reference.cast_overflow Uploads.engagements)
              [Text "positive"; Text "negative"; Text "positive"; NaN]
              [Text "video"; Text "text"; Text "text"; Text "image"]
              eq_refl eq_refl eq_refl)
    as (s & m & Hs & Hm & _).
  split.
  - rewrite Hs. vm_compute in Hs. injection Hs as Hs. now rewrite <- Hs.
  - rewrite Hm. vm_compute in Hm. injection Hm as Hm. now rewrite <- Hm.
Defined.

(** ** The insight requester *)

Lemma quiet_ret {A : Type} (a : A) : quiet (ret a).
Proof. split; [reflexivity | discriminate]. Qed.

Lemma quiet_raise {A : Type} (e : exception) : quiet (@raise A e).
Proof. split; [reflexivity | discriminate]. Qed.

Lemma quiet_bind {A B : Type} (m : M A) (k : A -> M B) :
  quiet m -> (forall a, quiet (k a)) -> quiet (bind m k).
Proof.
  destruct m as [w [a| |e]]; intros [Hw Hr] Hk; simpl in *; subst.
  - specialize (Hk a). destruct (k a) as [w' r']. exact Hk.
  - contradiction.
  - split; [reflexivity | discriminate].
Qed.

Lemma quiet_py_get (x : json) (key : string) : quiet (py_get x key).
Proof. destruct x; simpl; (apply quiet_ret || apply quiet_raise). Qed.

Lemma quiet_py_item (x : json) (key : string) : quiet (py_item x key).
Proof.
  destruct x; simpl; try apply quiet_raise.
  destruct (lookup key items); (apply quiet_ret || apply quiet_raise).
Qed.

Lemma quiet_py_first (x : json) : quiet (py_first x).
Proof.
  destruct x as [| | |[|c s]|[|v l]|]; simpl; (apply quiet_ret || apply quiet_raise).
Qed.

Lemma quiet_raise_for_status (r : Response) : quiet (raise_for_status r).
Proof.
  unfold raise_for_status.
  destruct (_ && _); (apply quiet_ret || apply quiet_raise).
Qed.

Create HintDb quiet.

#[local] Hint Resolve quiet_ret quiet_raise quiet_py_get quiet_py_item quiet_py_first
  quiet_raise_for_status : quiet.

Ltac quiet :=
  repeat first
    [ apply quiet_bind; [|intros ?]
    | match goal with
      | |- quiet (if ?b then _ else _) => destruct b
      | |- quiet (match ?x with _ => _ end) => destruct x
      end
    | solve [auto with quiet] ].

Section InsightFacts.

Variable GEMINI_API_KEY : string.
Variable post : string -> json -> exchange.
Variable str_exception : exception -> string.

(** The requester always hands back a value: it writes nothing, does not
    stop the run and lets no exception out. *)
Lemma get_gemini_insight_returns (prompt_text : string) :
  exists x, get_gemini_insight GEMINI_API_KEY post str_exception prompt_text = ret x.
Proof.
  unfold get_gemini_insight.
  destruct (_ || _); [now eexists|].
  match goal with |- context [try_except ?body _] =>
    assert (Hq : quiet body) by quiet;
    destruct body as [w [x| |e]]
  end; destruct Hq as [Hw Hr]; simpl in Hw, Hr; subst.
  - now exists x.
  - contradiction.
  - simpl. destruct (is_RequestException e); now eexists.
Qed.

Lemma configured_gate :
  configured GEMINI_API_KEY ->
  String.eqb GEMINI_API_KEY "" || String.eqb GEMINI_API_KEY placeholder_key = false.
Proof.
  intros [H1 H2]. apply String.eqb_neq in H1, H2. now rewrite H1, H2.
Qed.

(** A transport failure is reported by the first handler. *)
Lemma get_gemini_insight_failure (prompt_text : string) (e : exception) :
  configured GEMINI_API_KEY ->
  transport_failure
    (post (api_url GEMINI_API_KEY) (payload prompt_text)) e ->
  get_gemini_insight GEMINI_API_KEY post str_exception prompt_text
  = ret (JString (request_failed str_exception e)).
Proof.
  intros Hkey Hfail. unfold get_gemini_insight.
  rewrite (configured_gate Hkey).
  inversion Hfail as [d Hx He|d Hx He|r Hr Hx He]; subst; try reflexivity.
  rewrite bind_ret_l. unfold raise_for_status.
  replace (Z.leb 400 (status_code r) && Z.ltb (status_code r) 600) with true
    by (symmetry; apply andb_true_intro; split; [apply Z.leb_le | apply Z.ltb_lt]; lia).
  reflexivity.
Qed.

End InsightFacts.

(** ** The script *)

Lemma bind_ok {A B : Type} (m : M A) (k : A -> M B) (w : list message) (a : A) :
  m = (w, Ok a) -> bind m k = (w ++ output (k a), outcome (k a)).
Proof. intros ->. unfold bind, output, outcome. now destruct (k a). Qed.

Section ScriptFacts.

Variable lower : string -> string.
Variable to_datetime : list value -> list (option Z).
Variable to_numeric : value -> option number.
Variable cast_overflow : Q -> Z.
Variable sort_values : list (value * Z) -> list (value * Z).
Variable period_str : Z -> string.
Variable GEMINI_API_KEY : string.
Variable post : string -> json -> exchange.
Variable str_exception : exception -> string.
Variable read_csv : string -> exception + DataFrame.
Variable to_dict_records : list string -> list (value * Z) -> string.
Variable str_json : json -> string.

(** A block whose view is computed shows one figure and hands the view
    back, whatever the exchange does. *)
Lemma chart_block_returns (title label : string) (names : list string)
    (data : M (list (value * Z))) (prompt : string -> string)
    (v : list (value * Z)) :
  data = ret v ->
  exists w x,
    chart_block GEMINI_API_KEY post str_exception to_dict_records str_json
      title label names data prompt
    = (w, Ok {| view := v; insight := x |})
    /\ filter is_chart w = [st_plotly_chart title names v].
Proof.
  intros ->. unfold chart_block.
  destruct (get_gemini_insight_returns GEMINI_API_KEY post str_exception
              (prompt (to_dict_records names v))) as [x Hx].
  rewrite bind_emit, bind_ret_l, bind_emit, Hx, bind_ret_l, !bind_emit.
  cbn [output outcome ret fst snd].
  eexists _, x. split; reflexivity.
Qed.

(** The chart section on a table whose five views are computed. *)
Lemma charts_returns (df : DataFrame) (v1 v2 v3 v4 v5 : list (value * Z)) :
  sentiment_counts sort_values df = ret v1 ->
  engagement_trend period_str df = ret v2 ->
  platform_engagements sort_values df = ret v3 ->
  mediatype_counts sort_values df = ret v4 ->
  location_engagements sort_values df = ret v5 ->
  exists w d,
    charts sort_values period_str GEMINI_API_KEY post str_exception
      to_dict_records str_json df = (w, Ok d)
    /\ views d = [v1; v2; v3; v4; v5]
    /\ filter is_chart w
       = [st_plotly_chart "Sentiment Breakdown" ["Sentiment"; "Count"] v1;
          st_plotly_chart "Engagement Trend Over Time" ["date"; "engagements"] v2;
          st_plotly_chart "Platform Engagements" ["platform"; "engagements"] v3;
          st_plotly_chart "Media Type Mix" ["MediaType"; "Count"] v4;
          st_plotly_chart "Top 5 Locations by Engagements" ["location"; "engagements"] v5].
Proof.
  intros H1 H2 H3 H4 H5. unfold charts.
  destruct (chart_block_returns "Sentiment Breakdown" "Sentiment Breakdown"
              ["Sentiment"; "Count"] _ prompt_sentiment v1 H1) as (w1 & x1 & E1 & F1).
  destruct (chart_block_returns "Engagement Trend Over Time" "Engagement Trend"
              ["date"; "engagements"] _ prompt_engagement v2 H2) as (w2 & x2 & E2 & F2).
  destruct (chart_block_returns "Platform Engagements" "Platform Engagements"
              ["platform"; "engagements"] _ prompt_platform v3 H3) as (w3 & x3 & E3 & F3).
  destruct (chart_block_returns "Media Type Mix" "Media Type Mix"
              ["MediaType"; "Count"] _ prompt_mediatype v4 H4) as (w4 & x4 & E4 & F4).
  destruct (chart_block_returns "Top 5 Locations by Engagements" "Top 5 Locations"
              ["location"; "engagements"] _ prompt_location v5 H5) as (w5 & x5 & E5 & F5).
  rewrite bind_emit.
  rewrite (bind_ok _ _ _ _ E1), (bind_ok _ _ _ _ E2), (bind_ok _ _ _ _ E3).
  rewrite (bind_ok _ _ _ _ E4), (bind_ok _ _ _ _ E5).
  cbn [output outcome ret fst snd].
  eexists _, _. split; [reflexivity|]. split; [reflexivity|].
  cbn [filter is_chart]. rewrite !filter_app, F1, F2, F3, F4, F5. reflexivity.
Qed.

End ScriptFacts.

Section ScriptClaims.

Variable lower : string -> string.
Variable to_datetime : list value -> list (option Z).
Variable to_numeric : value -> option number.
Variable cast_overflow : Q -> Z.
Variable sort_values : list (value * Z) -> list (value * Z).
Variable period_str : Z -> string.
Variable GEMINI_API_KEY : string.
Variable post : string -> json -> exchange.
Variable str_exception : exception -> string.
Variable read_csv : string -> exception + DataFrame.
Variable to_dict_records : list string -> list (value * Z) -> string.
Variable str_json : json -> string.

(** C7 (as amended): when the cleaned table of an upload has no row, the
    run does not fail and shows no summary view: the chart section is
    skipped, the page holds the cleaner's report and the success notice. *)
Theorem empty_table_shows_no_chart (file : string) (df df' : DataFrame) :
  read_csv file = inr df ->
  outcome (clean_data lower to_datetime to_numeric cast_overflow df) = Ok df' ->
  len df' = 0%nat ->
  let page := script lower to_datetime to_numeric cast_overflow sort_values period_str GEMINI_API_KEY
                post str_exception read_csv to_dict_records str_json (Some file) in
  outcome page = Ok None
  /\ output page
     = output (clean_data lower to_datetime to_numeric cast_overflow df)
       ++ [st_success "CSV file uploaded and data cleaned successfully!"]
  /\ filter is_chart (output page) = []
  /\ filter is_error (output page) = [].
Proof.
  intros Hread Hclean Hlen page.
  destruct (clean_data_inversion _ _ _ _ _ _ Hclean) as (_ & _ & _ & _ & Hrun).
  rewrite Hrun in Hclean. cbn [outcome snd] in Hclean. injection Hclean as Hdf.
  assert (Hempty : empty (cleaned lower to_datetime to_numeric cast_overflow df) = true)
    by (unfold empty; rewrite Hdf, Hlen; reflexivity).
  assert (Epage : page = (cleaning_report lower to_datetime to_numeric cast_overflow df
                          ++ [st_success "CSV file uploaded and data cleaned successfully!"],
                          Ok None)).
  { unfold page, script, upload. rewrite Hread, bind_ret_l, Hrun.
    cbn [bind try_except emit ret]. rewrite Hempty. cbn [negb].
    unfold ret. rewrite !app_nil_r. reflexivity. }
  rewrite Epage, Hrun. cbn [output outcome fst snd].
  split; [reflexivity|]. split; [reflexivity|].
  unfold cleaning_report, cleaning_preamble.
  destruct (Nat.ltb _ _); split; reflexivity.
Qed.

(** C8 (as amended): with a credential configured, a failure of the
    exchange at the level of transport (no connection, no answer in time,
    or an answer under an error status, 4xx or 5xx) makes the requester
    hand back a text that is not empty and quotes the failure; no exception
    leaves it.  Whatever the exchange does, the chart section goes through
    its five views. *)
Theorem transport_failures_degrade (prompt_text : string) (e : exception) :
  configured GEMINI_API_KEY ->
  transport_failure (post (api_url GEMINI_API_KEY) (payload prompt_text)) e ->
  let text := ("Error calling Gemini API: " ++ str_exception e
               ++ ". Check your API key and network.")%string in
  get_gemini_insight GEMINI_API_KEY post str_exception prompt_text = ret (JString text)
  /\ text <> ""
  /\ diagnostic str_exception (JString text)
  /\ (forall df v1 v2 v3 v4 v5,
        sentiment_counts sort_values df = ret v1 ->
        engagement_trend period_str df = ret v2 ->
        platform_engagements sort_values df = ret v3 ->
        mediatype_counts sort_values df = ret v4 ->
        location_engagements sort_values df = ret v5 ->
        exists w d,
          charts sort_values period_str GEMINI_API_KEY post str_exception
            to_dict_records str_json df = (w, Ok d)
          /\ views d = [v1; v2; v3; v4; v5]
          /\ List.length (filter is_chart w) = 5%nat).
Proof.
  intros Hkey Hfail text.
  split; [exact (get_gemini_insight_failure _ _ _ _ _ Hkey Hfail)|].
  split; [discriminate|].
  split; [exists e; now left|].
  intros df v1 v2 v3 v4 v5 H1 H2 H3 H4 H5.
  destruct (charts_returns sort_values period_str GEMINI_API_KEY post str_exception
              to_dict_records str_json df v1 v2 v3 v4 v5 H1 H2 H3 H4 H5)
    as (w & d & Hrun & Hviews & Hcharts).
  exists w, d. split; [exact Hrun|]. split; [exact Hviews|].
  now rewrite Hcharts.
Qed.

End ScriptClaims.

Lemma empty_table_shows_no_chart_witness :
  outcome (script Reference.lower Reference.to_datetime Reference.to_numeric Reference.cast_overflow Reference.sort_values
             Reference.period_str placeholder_key Uploads.server_error
             Reference.str_exception Uploads.read_csv Reference.to_dict_records
             Reference.str_json (Some "no_valid_date.csv"))
  = Ok None.
Proof.
  refine (proj1 (empty_table_shows_no_chart
                   Reference.lower Reference.to_datetime Reference.to_numeric Reference.cast_overflow Reference.sort_values
                   Reference.period_str placeholder_key Uploads.server_error
                   Reference.str_exception Uploads.read_csv Reference.to_dict_records
                   Reference.str_json "no_valid_date.csv" Uploads.no_valid_date
                   (cleaned Reference.lower Reference.to_datetime Reference.to_numeric Reference.cast_overflow Uploads.no_valid_date)
                   eq_refl _ eq_refl)).
  reflexivity.
Defined.

(** The claim C7 as the specification states it fails on an upload none of
    whose dates parses: the cleaned table has no row, and the run ends
    without a dashboard and without a figure on the page, where the claim
    wants five empty views. *)
Lemma empty_table_has_no_views :
  let page := script Reference.lower Reference.to_datetime Reference.to_numeric Reference.cast_overflow Reference.sort_values
                Reference.period_str placeholder_key Uploads.server_error
                Reference.str_exception Uploads.read_csv Reference.to_dict_records
                Reference.str_json (Some "no_valid_date.csv") in
  outcome (clean_data Reference.lower Reference.to_datetime Reference.to_numeric Reference.cast_overflow Uploads.no_valid_date)
  = Ok (cleaned Reference.lower Reference.to_datetime Reference.to_numeric Reference.cast_overflow Uploads.no_valid_date)
  /\ len (cleaned Reference.lower Reference.to_datetime Reference.to_numeric Reference.cast_overflow Uploads.no_valid_date) = 0%nat
  /\ ~ (exists d, outcome page = Ok (Some d) /\ views d = [[]; []; []; []; []])
  /\ filter is_chart (output page) = [].
Proof.
  cbv zeta. split; [reflexivity|]. split; [reflexivity|]. split.
  - intros (d & Hd & _). vm_compute in Hd. discriminate Hd.
  - reflexivity.
Qed.

Lemma transport_failures_degrade_witness :
  get_gemini_insight "secret" Uploads.server_error Reference.str_exception "How are we doing?"
  = ret (JString "Error calling Gemini API: 500 error. Check your API key and network.").
Proof.
  refine (proj1 (transport_failures_degrade
                   Reference.sort_values Reference.period_str "secret"
                   Uploads.server_error Reference.str_exception
                   Reference.to_dict_records Reference.str_json
                   "How are we doing?" (HTTPError 500) _ _)).
  - split; discriminate.
  - apply (error_status {| status_code := 500; json_ := inl JSONDecodeError |}).
    simpl. lia.
Defined.

(** The claim C8 as the specification states it fails for an answer under a
    status outside 2xx that is not an error status: [raise_for_status] lets
    304 through, and the requester hands back the text of the document, not
    a report of failure. *)
Lemma status_304_is_not_reported :
  configured "secret"
  /\ non_2xx (Uploads.not_modified (api_url "secret") (payload "How are we doing?"))
  /\ get_gemini_insight "secret" Uploads.not_modified Reference.str_exception
       "How are we doing?" = ret (JString "All quiet.")
  /\ ~ diagnostic Reference.str_exception (JString "All quiet.").
Proof.
  split; [split; discriminate|]. split; [|split].
  - eexists. split; [reflexivity|]. simpl. lia.
  - reflexivity.
  - intros [e [H|H]]; injection H as H; unfold request_failed, unexpected in H;
      simpl in H; discriminate H.
Qed.

(** * Further properties of the code *)

(** ** The normalizer *)

Lemma mem_remove_same (c : ascii) (s : string) : Str.mem c (Str.remove c s) = false.
Proof.
  induction s as [|a s IH]; simpl; [reflexivity|].
  destruct (Ascii.eqb a c) eqn:E; simpl; [exact IH|]. now rewrite E.
Qed.

Lemma mem_remove (c d : ascii) (s : string) :
  Str.mem c (Str.remove d s) = true -> Str.mem c s = true.
Proof.
  induction s as [|a s IH]; simpl; [discriminate|].
  destruct (Ascii.eqb a d); simpl.
  - intros H. rewrite (IH H). apply orb_true_r.
  - destruct (Ascii.eqb a c); simpl; [reflexivity | exact IH].
Qed.

Lemma mem_lower (c : ascii) (s : string) :
  Str.mem c (Str.ascii_lower s) = true -> is_upper c = false.
Proof.
  induction s as [|a s IH]; simpl; [discriminate|].
  destruct (Ascii.eqb_spec (Str.ascii_lower_char a) c) as [<-|_]; simpl; [|exact IH].
  intros _. clear. destruct a as [[] [] [] [] [] [] [] []]; reflexivity.
Qed.

Lemma lower_app (x y : string) :
  Str.ascii_lower (x ++ y) = (Str.ascii_lower x ++ Str.ascii_lower y)%string.
Proof. induction x as [|a x IH]; simpl; [reflexivity|]. now rewrite IH. Qed.

Lemma remove_app (c : ascii) (x y : string) :
  Str.remove c (x ++ y) = (Str.remove c x ++ Str.remove c y)%string.
Proof.
  induction x as [|a x IH]; simpl; [reflexivity|].
  destruct (Ascii.eqb a c); simpl; now rewrite IH.
Qed.

Lemma remove_length (c : ascii) (s : string) :
  String.length (Str.remove c s) <= String.length s.
Proof.
  induction s as [|a s IH]; simpl; [lia|].
  destruct (Ascii.eqb a c); simpl; lia.
Qed.

Lemma lower_length (s : string) : String.length (Str.ascii_lower s) = String.length s.
Proof. induction s as [|a s IH]; simpl; [reflexivity|]. now rewrite IH. Qed.

Lemma is_ascii_remove (c : ascii) (s : string) :
  Str.is_ascii s = true -> Str.is_ascii (Str.remove c s) = true.
Proof.
  induction s as [|a s IH]; simpl; [reflexivity|].
  intros H. apply andb_true_iff in H. destruct H as [Ha Hs].
  destruct (Ascii.eqb a c); simpl; [now apply IH|].
  now rewrite Ha, IH.
Qed.

Lemma is_ascii_app (x y : string) :
  Str.is_ascii x = true -> Str.is_ascii y = true -> Str.is_ascii (x ++ y) = true.
Proof.
  induction x as [|a x IH]; simpl; [now intros _|].
  intros H Hy. apply andb_true_iff in H. destruct H as [Ha Hx].
  now rewrite Ha, IH.
Qed.

(** No separator in a canonical name, whatever [str.lower] does. *)
Lemma normalize_column_name_separators (lower : string -> string) (x : string) :
  Str.mem " " (normalize_column_name lower x) = false
  /\ Str.mem "-" (normalize_column_name lower x) = false
  /\ Str.mem "_" (normalize_column_name lower x) = false.
Proof.
  unfold normalize_column_name. repeat split.
  - rewrite (remove_comm "_" "-"), (remove_comm "_" " "), (remove_comm "-" " ").
    apply mem_remove_same.
  - rewrite (remove_comm "_" "-"). apply mem_remove_same.
  - apply mem_remove_same.
Qed.

Section NormalizerExtras.

Variable lower : string -> string.
Hypothesis lower_idempotent : lower_is_idempotent lower.
Hypothesis lower_survives : lower_survives_removal lower.
Hypothesis lower_ascii : lower_on_ascii lower.

(** On a name in ASCII, [str.lower] is the lower-casing of the letters A to
    Z. *)
Lemma normalize_column_name_ascii (x : string) :
  Str.is_ascii x = true ->
  normalize_column_name lower x = normalize_column_name Str.ascii_lower x.
Proof. intros H. unfold normalize_column_name. now rewrite (lower_ascii x H). Qed.

(** X1: a canonical name holds no space, no hyphen and no underscore, and
    [str.lower] leaves it as it is; the canonical name of a name in ASCII
    holds no letter from A to Z and is no longer than the name. *)
Theorem normalized_name_is_canonical (x : string) :
  Str.mem " " (normalize_column_name lower x) = false
  /\ Str.mem "-" (normalize_column_name lower x) = false
  /\ Str.mem "_" (normalize_column_name lower x) = false
  /\ lower (normalize_column_name lower x) = normalize_column_name lower x
  /\ (Str.is_ascii x = true ->
      (forall c, Str.mem c (normalize_column_name lower x) = true -> is_upper c = false)
      /\ String.length (normalize_column_name lower x) <= String.length x).
Proof.
  destruct (normalize_column_name_separators lower x) as (Hs & Hh & Hu).
  split; [exact Hs|]. split; [exact Hh|]. split; [exact Hu|].
  split.
  { exact (proj1 (normalize_column_name_fixed lower lower_idempotent lower_survives x)). }
  intros Hx. rewrite (normalize_column_name_ascii x Hx).
  unfold normalize_column_name. split.
  - intros c H. do 3 apply mem_remove in H. exact (mem_lower _ _ H).
  - rewrite <- (lower_length x).
    repeat (etransitivity; [apply remove_length|]). reflexivity.
Qed.

(** X2: the canonical name of a name is that of the name in lower case;
    for names in ASCII it does not depend on the separators, and the
    normalizer works piece by piece: names in ASCII that differ in case,
    spaces, hyphens and underscores only get the same canonical name. *)
Theorem normalize_ignores_case_and_separators (x y : string) :
  normalize_column_name lower (lower x) = normalize_column_name lower x
  /\ (Str.is_ascii x = true ->
      normalize_column_name lower (Str.remove " " x) = normalize_column_name lower x
      /\ normalize_column_name lower (Str.remove "-" x) = normalize_column_name lower x
      /\ normalize_column_name lower (Str.remove "_" x) = normalize_column_name lower x)
  /\ (Str.is_ascii x = true -> Str.is_ascii y = true ->
      normalize_column_name lower (x ++ y)
      = (normalize_column_name lower x ++ normalize_column_name lower y)%string).
Proof.
  split; [|split].
  - unfold normalize_column_name. now rewrite lower_idempotent.
  - intros Hx.
    rewrite !normalize_column_name_ascii by (apply is_ascii_remove, Hx || exact Hx).
    split; [|split].
    + unfold normalize_column_name.
      rewrite (lower_remove " ") by apply separator_space. now rewrite remove_idem.
    + unfold normalize_column_name.
      rewrite (lower_remove "-") by apply separator_hyphen.
      rewrite (remove_comm " " "-"), remove_idem. reflexivity.
    + unfold normalize_column_name.
      rewrite (lower_remove "_") by apply separator_underscore.
      rewrite (remove_comm " " "_"), (remove_comm "-" "_"), remove_idem. reflexivity.
  - intros Hx Hy.
    rewrite !normalize_column_name_ascii by (first [assumption | apply is_ascii_app; assumption]).
    unfold normalize_column_name. now rewrite lower_app, !remove_app.
Qed.

(** ** The schema check *)

(** X3: an upload whose header holds the six names that the page asks for
    passes the schema check, whatever other columns it has. *)
Theorem documented_headers_pass (df : DataFrame) :
  (forall h, In h documented_headers -> In h (columns df)) ->
  missing_columns lower df = [].
Proof.
  intros H.
  assert (Hall : forall c, In c expected_columns ->
                   In c (map (normalize_column_name lower) (columns df))).
  { intros c Hc. simpl in Hc.
    destruct Hc as [<-|[<-|[<-|[<-|[<-|[<-|[]]]]]]];
      [ replace "date" with (normalize_column_name lower "Date")
          by (now rewrite normalize_column_name_ascii)
      | replace "platform" with (normalize_column_name lower "Platform")
          by (now rewrite normalize_column_name_ascii)
      | replace "sentiment" with (normalize_column_name lower "Sentiment")
          by (now rewrite normalize_column_name_ascii)
      | replace "location" with (normalize_column_name lower "Location")
          by (now rewrite normalize_column_name_ascii)
      | replace "engagements" with (normalize_column_name lower "Engagements")
          by (now rewrite normalize_column_name_ascii)
      | replace "mediatype" with (normalize_column_name lower "Media Type")
          by (now rewrite normalize_column_name_ascii) ];
      apply in_map, H; simpl; tauto. }
  destruct (missing_columns lower df) as [|c l] eqn:E; [reflexivity|].
  exfalso.
  assert (Hc : In c (missing_columns lower df)) by (rewrite E; now left).
  apply missing_columns_spec in Hc. destruct Hc as [Hc Hn]. exact (Hn (Hall c Hc)).
Qed.

End NormalizerExtras.

Lemma normalized_name_is_canonical_witness :
  Str.mem " " (normalize_column_name Reference.lower "Media_Type - A") = false
  /\ Reference.lower (normalize_column_name Reference.lower "Media_Type - A")
     = normalize_column_name Reference.lower "Media_Type - A"
  /\ String.length (normalize_column_name Reference.lower "Media_Type - A") <= 14.
Proof.
  destruct (normalized_name_is_canonical Reference.lower
              reference_lower_idempotent reference_lower_survives_removal
              reference_lower_on_ascii "Media_Type - A")
    as (Hs & _ & _ & Hl & Hascii).
  split; [exact Hs|]. split; [exact Hl|].
  exact (proj2 (Hascii eq_refl)).
Defined.

Lemma normalize_ignores_case_and_separators_witness :
  normalize_column_name Reference.lower ("Media " ++ "Type")
  = (normalize_column_name Reference.lower "Media "
     ++ normalize_column_name Reference.lower "Type")%string.
Proof.
  destruct (normalize_ignores_case_and_separators Reference.lower
              reference_lower_idempotent reference_lower_on_ascii "Media " "Type")
    as (_ & _ & Happ).
  exact (Happ eq_refl eq_refl).
Defined.

Lemma documented_headers_pass_witness :
  missing_columns Reference.lower Uploads.engagements = [].
Proof.
  apply (documented_headers_pass Reference.lower reference_lower_on_ascii).
  simpl. intros h H.
  repeat (destruct H as [<-|H]; [tauto|]). contradiction.
Defined.

(** ** The cleaner *)

Section CleanerExtras.

Variable lower : string -> string.
Variable to_datetime : list value -> list (option Z).
Variable to_numeric : value -> option number.
Variable cast_overflow : Q -> Z.

(** X4: the cleaner keeps a table well formed (every column has one cell
    per row), with the same number of columns, and never adds a row. *)
Theorem clean_data_keeps_well_formed (df df' : DataFrame) :
  (forall col, List.length (to_datetime col) = List.length col) ->
  well_formed df ->
  outcome (clean_data lower to_datetime to_numeric cast_overflow df) = Ok df' ->
  well_formed df'
  /\ List.length (cols df') = List.length (cols df)
  /\ len df' <= len df.
Proof.
  intros Hlen Hwf H.
  destruct (clean_data_inversion _ _ _ _ _ _ H)
    as (Hall & [date Edate] & [eng Eeng] & [numbers Hcast] & Hrun).
  rewrite Hrun in H. cbn [outcome snd] in H. injection H as <-.
  unfold kept_numbers, kept_engagements in Hcast.
  rewrite (getitem_column _ _ _ Eeng) in Hcast.
  pose proof (Forall2_length (astype_int_coerced _ _ _ _ Hcast)) as Hnumbers.
  assert (Hparsed : List.length (parsed_dates lower to_datetime df) = len df).
  { unfold parsed_dates. rewrite Hlen, (getitem_column _ _ _ Edate).
    exact (getitem_length _ _ _ (well_formed_normalized _ _ Hwf) Edate). }
  assert (Hmask : List.length (date_mask lower to_datetime df) = len df)
    by (unfold date_mask; now rewrite length_map).
  assert (Hkept : len (cleaned lower to_datetime to_numeric cast_overflow df)
                  = List.length (filter (fun b => b) (date_mask lower to_datetime df)))
    by (unfold len, cleaned; cbn [index]; now apply select_length).
  split; [|split].
  - unfold well_formed. rewrite Hkept. unfold cleaned; cbn [cols].
    apply Forall_map. unfold well_formed in Hwf.
    rewrite Forall_forall in Hwf |- *. intros [n c] Hin. cbn [fst snd].
    specialize (Hwf _ Hin). cbn [snd] in Hwf.
    destruct (String.eqb _ "date").
    + apply select_length. now rewrite Hmask, length_map.
    + destruct (String.eqb_spec (normalize_column_name lower n) "engagements")
        as [E|NE]; [|apply select_length; now rewrite Hmask].
      assert (Hin' : In (normalize_column_name lower n, c) (cols (normalized lower df))).
      { unfold normalized, rename_columns; cbn [cols].
        apply in_map_iff. exists (n, c). split; [reflexivity | exact Hin]. }
      pose proof (getitem_In _ _ _ _ Eeng Hin' E) as Hc. cbn [snd] in Hc. subst c.
      unfold cast_cells. rewrite Hcast. cbn [outcome ret snd].
      rewrite length_map, <- Hnumbers. apply select_length. now rewrite Hmask.
  - unfold cleaned; cbn [cols]. apply length_map.
  - destruct (len_cleaned lower to_datetime to_numeric cast_overflow
                df date Hlen Hwf Edate) as [_ Hsum].
    lia.
Qed.

(** X5: when the cleaner hands a table back, what it wrote is, in order:
    the section title, the summary, the number of rows of the upload, a
    warning with the number of rows removed, in figures, if some were, and
    the number of rows left. *)
Theorem clean_data_report (df df' : DataFrame) :
  outcome (clean_data lower to_datetime to_numeric cast_overflow df) = Ok df' ->
  exists removed,
    output (clean_data lower to_datetime to_numeric cast_overflow df)
    = [st_subheader "2. Data Cleaning Summary";
       st_markdown cleaning_summary;
       st_info ("Original number of rows: " ++ Str.of_nat (len df))]
      ++ removed
      ++ [st_success ("Successfully processed " ++ Str.of_nat (len df')
                      ++ " rows of data after cleaning.")]
    /\ (removed = [] /\ len df <= len df'
        \/ removed = [st_warning ("Removed " ++ Str.of_nat (len df - len df')
                                  ++ " rows due to invalid 'Date' formats.")]
           /\ len df' < len df).
Proof.
  intros H.
  destruct (clean_data_inversion _ _ _ _ _ _ H) as (_ & _ & _ & _ & Hrun).
  rewrite Hrun in H |- *.
  cbn [outcome output fst snd] in H |- *. injection H as <-.
  unfold cleaning_report, cleaning_preamble. rewrite <- app_assoc.
  destruct (Nat.ltb_spec (len (cleaned lower to_datetime to_numeric cast_overflow df)) (len df)).
  - eexists. split; [reflexivity|]. right. now split.
  - exists []. split; [reflexivity|]. left. now split.
Qed.

End CleanerExtras.

Lemma clean_data_keeps_well_formed_witness :
  well_formed (cleaned Reference.lower Reference.to_datetime Reference.to_numeric Reference.cast_overflow Uploads.dates)
  /\ len (cleaned Reference.lower Reference.to_datetime Reference.to_numeric Reference.cast_overflow Uploads.dates) <= 3.
Proof.
  destruct (clean_data_keeps_well_formed Reference.lower Reference.to_datetime Reference.to_numeric Reference.cast_overflow
              Uploads.dates _ reference_to_datetime_length well_formed_dates eq_refl)
    as (Hwf & _ & Hle).
  split; [exact Hwf | exact Hle].
Defined.

Lemma clean_data_report_witness :
  output (clean_data Reference.lower Reference.to_datetime Reference.to_numeric
            Reference.cast_overflow Uploads.dates)
  = [st_subheader "2. Data Cleaning Summary";
     st_markdown cleaning_summary;
     st_info "Original number of rows: 3";
     st_warning "Removed 1 rows due to invalid 'Date' formats.";
     st_success "Successfully processed 2 rows of data after cleaning."].
Proof.
  destruct (clean_data_report Reference.lower Reference.to_datetime Reference.to_numeric
              Reference.cast_overflow Uploads.dates _ eq_refl)
    as (removed & Hout & [[_ Hle] | [-> _]]).
  - exfalso. vm_compute in Hle. lia.
  - exact Hout.
Defined.

(** ** The insight requester *)

Lemma lookup_truthy (key : string) (items : list (string * json)) (v : json) :
  lookup key items = Some v -> truthy (JObject items) = true.
Proof. destruct items; [discriminate | reflexivity]. Qed.

Lemma raise_for_status_ok (r : Response) :
  ok_status r -> raise_for_status r = ret tt.
Proof.
  unfold ok_status, raise_for_status. intros H.
  destruct (Z.leb_spec 400 (status_code r)), (Z.ltb_spec (status_code r) 600);
    simpl; try reflexivity. exfalso. apply H. lia.
Qed.

Lemma raise_for_status_error (r : Response) :
  (400 <= status_code r < 600)%Z ->
  raise_for_status r = raise (HTTPError (status_code r)).
Proof.
  unfold raise_for_status. intros H.
  destruct (Z.leb_spec 400 (status_code r)), (Z.ltb_spec (status_code r) 600);
    simpl; try reflexivity; lia.
Qed.

Lemma truthy_cons (x : json) (l : list json) : truthy (JArray (x :: l)) = true.
Proof. reflexivity. Qed.

(** One step of the requester's walk through a document. *)
Ltac insight_step :=
  first
    [ rewrite bind_ret_l
    | rewrite truthy_cons
    | match goal with
      | H : lookup _ ?items = Some _ |- context [truthy (JObject ?items)] =>
          rewrite (lookup_truthy _ _ _ H)
      end
    | match goal with
      | H : lookup ?k ?items = _ |- context [lookup ?k ?items] => rewrite H
      end
    | progress cbn [py_get py_item py_first] ].

Section InsightExtras.

Variable GEMINI_API_KEY : string.
Variable post : string -> json -> exchange.
Variable str_exception : exception -> string.

(** X6: the requester lets no exception out, does not stop the run and
    writes nothing to the page, whatever the credential, the prompt and the
    exchange. *)
Theorem get_gemini_insight_never_raises (prompt_text : string) :
  output (get_gemini_insight GEMINI_API_KEY post str_exception prompt_text) = []
  /\ exists x,
       outcome (get_gemini_insight GEMINI_API_KEY post str_exception prompt_text) = Ok x.
Proof.
  destruct (get_gemini_insight_returns GEMINI_API_KEY post str_exception prompt_text)
    as [x Hx].
  rewrite Hx. split; [reflexivity | now exists x].
Qed.

(** X8: an answer let through by the status check, whose document has a
    first candidate with a content whose first part has a text, makes the
    requester hand back that text as it is. *)
Theorem usable_answer_is_returned (prompt_text : string) (r : Response)
    (doc text : json) :
  configured GEMINI_API_KEY ->
  post (api_url GEMINI_API_KEY) (payload prompt_text) = PostReturns r ->
  ok_status r ->
  json_ r = inr doc ->
  has_text doc text ->
  get_gemini_insight GEMINI_API_KEY post str_exception prompt_text = ret text.
Proof.
  intros Hkey Hpost Hok Hdoc Htext.
  destruct Htext as [items candidate content fields candidates parts text H1 H2 H3 H4].
  unfold get_gemini_insight.
  rewrite (configured_gate _ Hkey), Hpost, bind_ret_l.
  rewrite (raise_for_status_ok _ Hok), bind_ret_l, Hdoc, bind_ret_l.
  repeat insight_step. reflexivity.
Qed.

(** X9: an answer let through by the status check, in whose document the
    requester finds no candidate to use (the document is empty, has no
    candidate, has a first candidate without content, or a content without
    part), makes it hand back the fixed text [no_insight]. *)
Theorem unusable_answer_gives_no_insight (prompt_text : string) (r : Response)
    (doc : json) :
  configured GEMINI_API_KEY ->
  post (api_url GEMINI_API_KEY) (payload prompt_text) = PostReturns r ->
  ok_status r ->
  json_ r = inr doc ->
  without_candidate doc ->
  get_gemini_insight GEMINI_API_KEY post str_exception prompt_text
  = ret (JString no_insight).
Proof.
  intros Hkey Hpost Hok Hdoc Hnone.
  unfold get_gemini_insight.
  rewrite (configured_gate _ Hkey), Hpost, bind_ret_l.
  rewrite (raise_for_status_ok _ Hok), bind_ret_l, Hdoc, bind_ret_l.
  destruct Hnone as [doc Hfalsy | items Hc | items candidate candidates H1 Hc
                    | items candidate content candidates H1 H2 Hp].
  - rewrite Hfalsy, bind_ret_l, Hfalsy. reflexivity.
  - cbn [field] in Hc.
    destruct (truthy (JObject items)) eqn:Et.
    + cbn [py_get]. rewrite bind_ret_l, Hc. reflexivity.
    + rewrite bind_ret_l, Et. reflexivity.
  - cbn [field] in Hc. repeat insight_step.
    rewrite Hc. repeat insight_step. rewrite Hc. reflexivity.
  - cbn [field] in Hp. repeat insight_step.
    destruct (truthy (JObject content)) eqn:Et.
    + repeat insight_step. rewrite Hp. reflexivity.
    + repeat insight_step. rewrite Et. reflexivity.
Qed.

(** X10: with a credential configured, an exception of the exchange (from
    the call, the status check or the decoding of the answer) is reported by
    its class: a request exception under "Error calling Gemini API", any
    other under "An unexpected error occurred". *)
Theorem exceptions_are_reported_by_class (prompt_text : string) (e : exception) :
  configured GEMINI_API_KEY ->
  exchange_raises (post (api_url GEMINI_API_KEY) (payload prompt_text)) e ->
  get_gemini_insight GEMINI_API_KEY post str_exception prompt_text
  = ret (JString (if is_RequestException e
                  then request_failed str_exception e
                  else unexpected str_exception e)).
Proof.
  intros Hkey Hraise. unfold get_gemini_insight.
  rewrite (configured_gate _ Hkey).
  inversion Hraise as [e' Hx He | r Hr Hx He | r e' Hok Hjson Hx He]; subst.
  - simpl. now destruct (is_RequestException e).
  - rewrite bind_ret_l, (raise_for_status_error _ Hr). reflexivity.
  - rewrite bind_ret_l, (raise_for_status_ok _ Hok), bind_ret_l, Hjson.
    simpl. now destruct (is_RequestException e).
Qed.

(** X11: a document that has a first candidate, a content and a first part,
    but no text in that part, is reported as an unexpected error (the
    missing key), not as a missing insight. *)
Theorem part_without_text_is_unexpected (prompt_text : string) (r : Response)
    (items candidate content fields : list (string * json))
    (candidates parts : list json) :
  configured GEMINI_API_KEY ->
  post (api_url GEMINI_API_KEY) (payload prompt_text) = PostReturns r ->
  ok_status r ->
  json_ r = inr (JObject items) ->
  lookup "candidates" items = Some (JArray (JObject candidate :: candidates)) ->
  lookup "content" candidate = Some (JObject content) ->
  lookup "parts" content = Some (JArray (JObject fields :: parts)) ->
  lookup "text" fields = None ->
  get_gemini_insight GEMINI_API_KEY post str_exception prompt_text
  = ret (JString (unexpected str_exception (KeyError "text"))).
Proof.
  intros Hkey Hpost Hok Hdoc H1 H2 H3 H4.
  unfold get_gemini_insight.
  rewrite (configured_gate _ Hkey), Hpost, bind_ret_l.
  rewrite (raise_for_status_ok _ Hok), bind_ret_l, Hdoc, bind_ret_l.
  repeat insight_step. reflexivity.
Qed.

End InsightExtras.

Lemma configured_secret : configured "secret".
Proof. split; discriminate. Qed.

Lemma usable_answer_is_returned_witness :
  get_gemini_insight "secret" Uploads.not_modified Reference.str_exception "Any news?"
  = ret (JString "All quiet.").
Proof.
  eapply (usable_answer_is_returned "secret" Uploads.not_modified
            Reference.str_exception "Any news?" _ _ _ configured_secret eq_refl).
  - unfold ok_status. simpl. lia.
  - reflexivity.
  - eapply has_text_intro; reflexivity.
Defined.

Lemma unusable_answer_gives_no_insight_witness :
  get_gemini_insight "secret" Exchanges.no_candidate Reference.str_exception "Any news?"
  = ret (JString "Could not generate insights for this chart.").
Proof.
  eapply (unusable_answer_gives_no_insight "secret" Exchanges.no_candidate
            Reference.str_exception "Any news?" _ _ configured_secret eq_refl).
  - unfold ok_status. simpl. lia.
  - reflexivity.
  - apply no_candidates. reflexivity.
Defined.

Lemma exceptions_are_reported_by_class_witness :
  get_gemini_insight "secret" Exchanges.broken Reference.str_exception "Any news?"
  = ret (JString "An unexpected error occurred: out of memory").
Proof.
  apply (exceptions_are_reported_by_class "secret" Exchanges.broken
           Reference.str_exception "Any news?" (OtherException "out of memory")
           configured_secret).
  apply post_raises.
Defined.

Lemma part_without_text_is_unexpected_witness :
  get_gemini_insight "secret" Exchanges.no_text Reference.str_exception "Any news?"
  = ret (JString "An unexpected error occurred: 'text'").
Proof.
  eapply (part_without_text_is_unexpected "secret" Exchanges.no_text
            Reference.str_exception "Any news?" _ _ _ _ _ _ _
            configured_secret eq_refl).
  - unfold ok_status. simpl. lia.
  - reflexivity.
  - reflexivity.
  - reflexivity.
  - reflexivity.
  - reflexivity.
Defined.

(** ** The script *)

Lemma bind_ext {A B : Type} (m : M A) (k k' : A -> M B) :
  (forall a, k a = k' a) -> bind m k = bind m k'.
Proof. intros H. destruct m as [w [a| |e]]; simpl; [now rewrite H | |]; reflexivity. Qed.

Lemma to_period_D_timestamps (l : list Z) :
  to_period_D (map Timestamp l)
  = ret (map (fun ns => Period (Z.div ns nanoseconds_per_day)) l).
Proof.
  induction l as [|ns l IH]; simpl; [reflexivity|].
  now rewrite IH, bind_ret_l.
Qed.


(** What the cleaner writes holds no figure, however it ends. *)
Lemma clean_data_shows_no_chart (lower : string -> string)
    (to_datetime : list value -> list (option Z))
    (to_numeric : value -> option number) (cast_overflow : Q -> Z) (df : DataFrame) :
  filter is_chart (output (clean_data lower to_datetime to_numeric cast_overflow df)) = [].
Proof.
  destruct (missing_columns lower df) as [|c l] eqn:Hall.
  2:{ rewrite clean_data_stops by (rewrite Hall; discriminate). reflexivity. }
  destruct (getitem_cases (normalized lower df) "date") as [[date Edate]|[e Edate]].
  2:{ now rewrite (clean_data_date_raises _ _ _ _ df e Hall Edate). }
  destruct (getitem_cases (normalized lower df) "engagements") as [[eng Eeng]|[e Eeng]].
  2:{ rewrite (clean_data_lookup_raises _ _ _ _ df date e Hall Edate Eeng).
      cbn [output fst]. unfold cleaning_preamble. now destruct (Nat.ltb _ _). }
  destruct (astype_int_cases cast_overflow
              (map (fun v => fillna0 (to_numeric v))
                 (select (date_mask lower to_datetime df) eng)))
    as [[numbers Hcast]|Hcast].
  - rewrite (clean_data_run _ _ _ _ df date eng numbers Hall Edate Eeng Hcast).
    cbn [output fst]. unfold cleaning_report, cleaning_preamble.
    now destruct (Nat.ltb _ _).
  - rewrite (clean_data_cast_raises _ _ _ _ df date eng Hall Edate Eeng Hcast).
    cbn [output fst]. unfold cleaning_preamble. now destruct (Nat.ltb _ _).
Qed.

Section ScriptExtras.

Variable lower : string -> string.
Variable to_datetime : list value -> list (option Z).
Variable to_numeric : value -> option number.
Variable cast_overflow : Q -> Z.
Variable sort_values : list (value * Z) -> list (value * Z).
Variable period_str : Z -> string.
Variable GEMINI_API_KEY : string.
Variable str_exception : exception -> string.
Variable read_csv : string -> exception + DataFrame.
Variable to_dict_records : list string -> list (value * Z) -> string.
Variable str_json : json -> string.

Lemma get_gemini_insight_gate (post : string -> json -> exchange) (prompt_text : string) :
  GEMINI_API_KEY = "" \/ GEMINI_API_KEY = placeholder_key ->
  get_gemini_insight GEMINI_API_KEY post str_exception prompt_text
  = ret (JString not_configured).
Proof.
  intros [-> | ->]; reflexivity.
Qed.

(** X7: without a credential (the key is empty, or the placeholder that the
    source ships) the requester hands back the fixed text [not_configured]
    and the exchange is never consulted: the whole run is the same under
    any two exchanges. *)
Theorem unconfigured_key_makes_no_request (post post' : string -> json -> exchange)
    (uploaded_file : option string) :
  GEMINI_API_KEY = "" \/ GEMINI_API_KEY = placeholder_key ->
  (forall prompt_text,
     get_gemini_insight GEMINI_API_KEY post str_exception prompt_text
     = ret (JString not_configured))
  /\ script lower to_datetime to_numeric cast_overflow sort_values period_str GEMINI_API_KEY post
       str_exception read_csv to_dict_records str_json uploaded_file
     = script lower to_datetime to_numeric cast_overflow sort_values period_str GEMINI_API_KEY post'
         str_exception read_csv to_dict_records str_json uploaded_file.
Proof.
  intros Hkey. split; [intros p; now apply get_gemini_insight_gate|].
  assert (Hblock : forall title label names data prompt,
            chart_block GEMINI_API_KEY post str_exception to_dict_records str_json
              title label names data prompt
            = chart_block GEMINI_API_KEY post' str_exception to_dict_records str_json
                title label names data prompt).
  { intros. unfold chart_block. apply bind_ext. intros _.
    apply bind_ext. intros v. apply bind_ext. intros _.
    now rewrite !(get_gemini_insight_gate _ _ Hkey). }
  unfold script. apply bind_ext. intros [df|]; [|reflexivity].
  destruct (negb (empty df)); [|reflexivity].
  f_equal. unfold charts. apply bind_ext. intros _.
  rewrite Hblock. apply bind_ext. intros c1.
  rewrite Hblock. apply bind_ext. intros c2.
  rewrite Hblock. apply bind_ext. intros c3.
  rewrite Hblock. apply bind_ext. intros c4.
  rewrite Hblock. reflexivity.
Qed.

End ScriptExtras.

Lemma unconfigured_key_makes_no_request_witness :
  script Reference.lower Reference.to_datetime Reference.to_numeric Reference.cast_overflow Reference.sort_values
    Reference.period_str placeholder_key Uploads.server_error Reference.str_exception
    Uploads.read_csv Reference.to_dict_records Reference.str_json (Some "dates.csv")
  = script Reference.lower Reference.to_datetime Reference.to_numeric Reference.cast_overflow Reference.sort_values
      Reference.period_str placeholder_key Uploads.not_modified Reference.str_exception
      Uploads.read_csv Reference.to_dict_records Reference.str_json (Some "dates.csv").
Proof.
  apply (unconfigured_key_makes_no_request
           Reference.lower Reference.to_datetime Reference.to_numeric Reference.cast_overflow Reference.sort_values
           Reference.period_str placeholder_key Reference.str_exception
           Uploads.read_csv Reference.to_dict_records Reference.str_json
           Uploads.server_error Uploads.not_modified (Some "dates.csv")).
  right. reflexivity.
Defined.

Section UploadExtras.

Variable lower : string -> string.
Variable to_datetime : list value -> list (option Z).
Variable to_numeric : value -> option number.
Variable cast_overflow : Q -> Z.
Variable sort_values : list (value * Z) -> list (value * Z).
Variable period_str : Z -> string.
Variable GEMINI_API_KEY : string.
Variable post : string -> json -> exchange.
Variable str_exception : exception -> string.
Variable read_csv : string -> exception + DataFrame.
Variable to_dict_records : list string -> list (value * Z) -> string.
Variable str_json : json -> string.

(** X12: an exception raised while the upload is read or cleaned does not
    end the run: the page gets one more error, which quotes the exception,
    no figure is shown, and the script goes on without a table. *)
Theorem failed_upload_is_reported (file : string) (e : exception) :
  read_csv file = inl e
  \/ (exists df, read_csv file = inr df
                 /\ outcome (clean_data lower to_datetime to_numeric cast_overflow df) = Raised e) ->
  let page := script lower to_datetime to_numeric cast_overflow sort_values period_str GEMINI_API_KEY
                post str_exception read_csv to_dict_records str_json (Some file) in
  outcome page = Ok None
  /\ (exists before,
        output page
        = before ++ [st_error ("Error reading or cleaning CSV: " ++ str_exception e)]
        /\ filter is_chart before = [])
  /\ filter is_chart (output page) = [].
Proof.
  intros H page.
  assert (Epage : exists before,
            page = (before ++ [st_error ("Error reading or cleaning CSV: "
                                         ++ str_exception e)], Ok None)
            /\ filter is_chart before = []).
  { destruct H as [Hread | (df & Hread & Hclean)].
    - exists []. split; [|reflexivity].
      unfold page, script, upload. rewrite Hread. reflexivity.
    - exists (output (clean_data lower to_datetime to_numeric cast_overflow df)).
      split; [|apply clean_data_shows_no_chart].
      unfold page, script, upload. rewrite Hread, bind_ret_l.
      destruct (clean_data lower to_datetime to_numeric cast_overflow df) as [w r].
      cbn [outcome snd] in Hclean. subst r. cbn [output fst].
      cbn. rewrite !app_nil_r. reflexivity. }
  destruct Epage as (before & -> & Hbefore).
  cbn [outcome output fst snd].
  split; [reflexivity|]. split.
  - exists before. now split.
  - rewrite filter_app, Hbefore. reflexivity.
Qed.

End UploadExtras.

Lemma failed_upload_is_reported_witness :
  output (script Reference.lower Reference.to_datetime Reference.to_numeric Reference.cast_overflow Reference.sort_values
            Reference.period_str placeholder_key Uploads.server_error
            Reference.str_exception Uploads.read_csv Reference.to_dict_records
            Reference.str_json (Some "unknown.csv"))
  = [st_error "Error reading or cleaning CSV: No columns to parse from file"].
Proof.
  destruct (failed_upload_is_reported
              Reference.lower Reference.to_datetime Reference.to_numeric Reference.cast_overflow Reference.sort_values
              Reference.period_str placeholder_key Uploads.server_error
              Reference.str_exception Uploads.read_csv Reference.to_dict_records
              Reference.str_json "unknown.csv"
              (ValueError "No columns to parse from file") (or_introl eq_refl))
    as (_ & _ & _).
  reflexivity.
Defined.

Section EndToEnd.

Variable lower : string -> string.
Variable to_datetime : list value -> list (option Z).
Variable to_numeric : value -> option number.
Variable cast_overflow : Q -> Z.
Variable sort_values : list (value * Z) -> list (value * Z).
Variable period_str : Z -> string.
Variable GEMINI_API_KEY : string.
Variable post : string -> json -> exchange.
Variable str_exception : exception -> string.
Variable read_csv : string -> exception + DataFrame.
Variable to_dict_records : list string -> list (value * Z) -> string.
Variable str_json : json -> string.




End EndToEnd.


(** ** The aggregator: totals *)

Lemma sum_app (l l' : list Z) : sum (l ++ l') = (sum l + sum l')%Z.
Proof. induction l as [|x l IH]; simpl; [reflexivity|]. rewrite IH. lia. Qed.

Lemma sum_perm (l l' : list Z) : Permutation l l' -> sum l = sum l'.
Proof. induction 1; simpl; lia. Qed.

Lemma sum_map_add {A : Type} (f g : A -> Z) (l : list A) :
  sum (map (fun k => (f k + g k)%Z) l) = (sum (map f l) + sum (map g l))%Z.
Proof. induction l as [|x l IH]; simpl; [reflexivity|]. rewrite IH. lia. Qed.

Lemma sum_map_zero {A : Type} (l : list A) : sum (map (fun _ => 0%Z) l) = 0%Z.
Proof. induction l as [|x l IH]; simpl; [reflexivity|]. exact IH. Qed.

Lemma value_eqb_sym (a b : value) : value_eqb a b = value_eqb b a.
Proof.
  destruct (value_eqb_spec a b), (value_eqb_spec b a); congruence.
Qed.

(** Among distinct keys, at most one is the key of a given row. *)
Lemma sum_indicator (K : list value) (key : value) (v : Z) :
  NoDup K ->
  sum (map (fun k => if value_eqb k key then v else 0%Z) K)
  = if existsb (value_eqb key) K then v else 0%Z.
Proof.
  induction K as [|k K IH]; simpl; intros Hnd; [reflexivity|].
  inversion Hnd as [|? ? Hk Hnd']; subst.
  rewrite (IH Hnd'), (value_eqb_sym key k).
  destruct (value_eqb_spec k key) as [->|_]; simpl; [|reflexivity].
  destruct (existsb (value_eqb key) K) eqn:E; [|lia].
  exfalso. apply Hk. apply existsb_exists in E. destruct E as (x & Hx & E).
  destruct (value_eqb_spec key x); [now subst | discriminate].
Qed.

(** The sums over distinct keys add up to the total over the rows whose
    key is one of them. *)
Lemma sum_where_total (K keys : list value) (vals : list Z) :
  NoDup K ->
  sum (map (fun k => sum_where k keys vals) K)
  = sum (select (map (fun key => existsb (value_eqb key) K) keys) vals).
Proof.
  intros Hnd. revert vals. induction keys as [|key keys IH]; intros vals.
  - simpl. unfold sum_where. simpl. apply sum_map_zero.
  - destruct vals as [|v vals].
    + simpl. unfold sum_where. simpl. apply sum_map_zero.
    + transitivity
        (sum (map (fun k => ((if value_eqb k key then v else 0)
                             + sum_where k keys vals)%Z) K)).
      { f_equal. apply map_ext. intros k. unfold sum_where. simpl.
        destruct (value_eqb k key); simpl; lia. }
      rewrite sum_map_add, (sum_indicator K key v Hnd), IH. simpl.
      destruct (existsb (value_eqb key) K); simpl; lia.
Qed.

(** The sums per key add up to the total over the rows whose key is not
    missing. *)
Lemma sum_where_keys_total (keys : list value) (vals : list Z) :
  sum (map (fun k => sum_where k keys vals) (sort_keys (unique (filter notna keys))))
  = sum (select (map notna keys) vals).
Proof.
  set (K := sort_keys (unique (filter notna keys))).
  assert (Hnd : NoDup K).
  { apply (Permutation_NoDup (Permutation_sym (sort_keys_perm _))).
    apply unique_NoDup. }
  rewrite (sum_where_total K keys vals Hnd). do 2 f_equal.
  apply map_ext_in. intros key Hkey.
  destruct (notna key) eqn:En.
  - apply existsb_exists. exists key. split.
    + apply (Permutation_in _ (Permutation_sym (sort_keys_perm _))).
      apply (proj2 (unique_In _ _)). apply filter_In. now split.
    + now destruct (value_eqb_spec key key).
  - destruct (existsb (value_eqb key) K) eqn:E; [|reflexivity].
    apply existsb_exists in E. destruct E as (x & Hx & E).
    destruct (value_eqb_spec key x); [subst x | discriminate].
    apply (Permutation_in _ (sort_keys_perm _)) in Hx.
    apply (proj1 (unique_In _ _)) in Hx. apply filter_In in Hx.
    destruct Hx as [_ Hx]. congruence.
Qed.

Lemma wrap64_sum_map (l : list Z) : wrap64 (sum (map wrap64 l)) = wrap64 (sum l).
Proof.
  induction l as [|a l IH]; simpl; [reflexivity|].
  rewrite (Z.add_comm (wrap64 a)), wrap64_add_r, Z.add_comm.
  rewrite <- wrap64_add_r, IH, wrap64_add_r. reflexivity.
Qed.

Lemma sum64_perm (l l' : list Z) : Permutation l l' -> sum64 l = sum64 l'.
Proof. intros H. now rewrite !sum64_wrap, (sum_perm _ _ H). Qed.

Lemma groupby_sum_numbers (keys : list value) (vals : list Z) :
  map snd (groupby_sum keys vals)
  = map wrap64 (map (fun k => sum_where k keys vals)
                  (sort_keys (unique (filter notna keys)))).
Proof.
  unfold groupby_sum. rewrite !map_map. cbn [snd]. apply map_ext.
  intros k. apply sum64_wrap.
Qed.

(** Added in int64, the grouped sums give the int64 sum of the rows whose
    key is not missing. *)
Lemma groupby_sum_total (keys : list value) (vals : list Z) :
  sum64 (map snd (groupby_sum keys vals)) = sum64 (select (map notna keys) vals).
Proof.
  rewrite !sum64_wrap, groupby_sum_numbers, wrap64_sum_map.
  now rewrite sum_where_keys_total.
Qed.

(** Where the sum of every key is an int64, the grouped sums are exact, and
    so is their total. *)
Lemma groupby_sum_exact (keys : list value) (vals : list Z) :
  (forall k, In k keys -> fits_int64 (sum_where k keys vals) = true) ->
  (forall k n, In (k, n) (groupby_sum keys vals) -> n = sum_where k keys vals)
  /\ sum (map snd (groupby_sum keys vals)) = sum (select (map notna keys) vals).
Proof.
  intros Hfits. split.
  - intros k n Hin. apply (proj2 (groupby_sum_keys keys vals)) in Hin.
    destruct Hin as [[Hk _] ->]. apply wrap64_id, Hfits, Hk.
  - rewrite groupby_sum_numbers, <- sum_where_keys_total. f_equal.
    rewrite map_map. apply map_ext_in. intros k Hk.
    apply wrap64_id, Hfits.
    apply (Permutation_in _ (sort_keys_perm _)) in Hk.
    apply (proj1 (unique_In _ _)) in Hk. now apply filter_In in Hk.
Qed.

Lemma select_all {A : Type} (mask : list bool) (l : list A) :
  forallb (fun b => b) mask = true -> List.length mask = List.length l ->
  select mask l = l.
Proof.
  revert l. induction mask as [|b mask IH]; intros [|x l]; simpl; try discriminate;
    try reflexivity.
  intros H Hl. apply andb_prop in H. destruct H as [-> H].
  f_equal. apply IH; [exact H | lia].
Qed.

Lemma In_firstn_skipn {A : Type} (n : nat) (l : list A) (x : A) :
  In x l -> In x (firstn n l) \/ In x (skipn n l).
Proof.
  intros H. rewrite <- (firstn_skipn n l) in H. now apply in_app_or in H.
Qed.

Lemma StronglySorted_app_inv {A : Type} (R : A -> A -> Prop) (l l' : list A) :
  StronglySorted R (l ++ l') ->
  forall a b, In a l -> In b l' -> R a b.
Proof.
  induction l as [|x l IH]; simpl; intros H a b Ha Hb; [contradiction|].
  inversion H as [|? ? Hs Hf]; subst.
  destruct Ha as [->|Ha].
  - rewrite Forall_forall in Hf. apply Hf. apply in_or_app. now right.
  - now apply (IH Hs).
Qed.

Lemma sum_ones {A : Type} (l : list A) :
  sum (map (fun _ => 1%Z) l) = Z.of_nat (List.length l).
Proof.
  induction l as [|x l IH]; [reflexivity|].
  cbn [map sum fold_right List.length]. unfold sum in IH. rewrite IH. lia.
Qed.

Lemma count_as_sum (k : value) (col : list value) :
  count k col = sum_where k col (map (fun _ => 1%Z) col).
Proof.
  unfold count, sum_where.
  rewrite select_map, select_filter. symmetry. apply sum_ones.
Qed.

(** The rows whose key is among the keys present and not missing are the
    rows whose key is not missing. *)
Lemma present_keys_mask (K keys : list value) :
  (forall k, In k K <-> In k keys /\ notna k = true) ->
  map (fun key => existsb (value_eqb key) K) keys = map notna keys.
Proof.
  intros HK. apply map_ext_in. intros key Hkey.
  destruct (notna key) eqn:En.
  - apply existsb_exists. exists key. split.
    + apply HK. now split.
    + now destruct (value_eqb_spec key key).
  - destruct (existsb (value_eqb key) K) eqn:E; [|reflexivity].
    apply existsb_exists in E. destruct E as (x & Hx & E).
    destruct (value_eqb_spec key x); [subst x | discriminate].
    apply HK in Hx. destruct Hx as [_ Hx]. congruence.
Qed.

Section AggregatorExtras.

Variable sort_values : list (value * Z) -> list (value * Z).
Hypothesis sort_values_sorts : sorts sort_values.

(** X14: the platform view holds one row per platform, with the sum of the
    engagements of its rows added in int64 (the sum wrapped around), in
    descending order of these numbers; added in int64 they give the int64
    sum of the engagements of all the rows whose platform is not missing.
    Where the sum of every platform is an int64, the numbers are the sums
    and add up to the engagements of these rows. *)
Theorem platform_engagements_spec (df : DataFrame) (platform engagements : list value)
    (numbers : list Z) :
  getitem df "platform" = ret platform ->
  getitem df "engagements" = ret engagements ->
  ints engagements = ret numbers ->
  exists v,
    platform_engagements sort_values df = ret v
    /\ NoDup (map fst v)
    /\ (forall k n, In (k, n) v <->
                    (In k platform /\ notna k = true)
                    /\ n = wrap64 (sum_where k platform numbers))
    /\ descending v
    /\ sum64 (map snd v) = sum64 (select (map notna platform) numbers)
    /\ ((forall k, In k platform ->
                   fits_int64 (sum_where k platform numbers) = true) ->
        (forall k n, In (k, n) v -> n = sum_where k platform numbers)
        /\ sum (map snd v) = sum (select (map notna platform) numbers)).
Proof.
  intros Hp He Hn.
  destruct (sort_values_sorts (groupby_sum platform numbers)) as [Hperm Hdesc].
  destruct (groupby_sum_keys platform numbers) as [Hnd Hrows].
  exists (sort_values (groupby_sum platform numbers)).
  split; [|split; [|split; [|split; [|split]]]].
  - unfold platform_engagements. now rewrite Hp, bind_ret_l, He, bind_ret_l, Hn, bind_ret_l.
  - exact (Permutation_NoDup_map fst _ _ Hperm Hnd).
  - intros k n. rewrite <- Hrows. split; apply Permutation_in;
      [exact Hperm | exact (Permutation_sym Hperm)].
  - exact Hdesc.
  - rewrite <- groupby_sum_total. apply sum64_perm, Permutation_map, Hperm.
  - intros Hfits. destruct (groupby_sum_exact platform numbers Hfits) as [Hexact Htotal].
    split.
    + intros k n Hin. apply Hexact. exact (Permutation_in _ Hperm Hin).
    + rewrite <- Htotal. apply sum_perm, Permutation_map, Hperm.
Qed.

(** X15: the top-locations view has at most five rows, all of them rows of
    the per-location sums as they are computed, in int64 (the sums wrapped
    around); no location left out carries a larger number than a location
    shown, and with five locations or fewer, all are shown.  Where the sum
    of every location is an int64, no location left out has a larger sum
    of engagements than a location shown. *)
Theorem top_locations_dominate (df : DataFrame) (location engagements : list value)
    (numbers : list Z) :
  getitem df "location" = ret location ->
  getitem df "engagements" = ret engagements ->
  ints engagements = ret numbers ->
  let sums := groupby_sum location numbers in
  exists v,
    location_engagements sort_values df = ret v
    /\ List.length v <= 5
    /\ (forall r, In r v -> In r sums)
    /\ (forall k n, In (k, n) sums -> n = wrap64 (sum_where k location numbers))
    /\ (forall out shown, In out sums -> ~ In out v -> In shown v ->
          (snd out <= snd shown)%Z)
    /\ (List.length sums <= 5 -> Permutation v sums)
    /\ ((forall k, In k location ->
                   fits_int64 (sum_where k location numbers) = true) ->
        forall out shown, In out sums -> ~ In out v -> In shown v ->
          (sum_where (fst out) location numbers
           <= sum_where (fst shown) location numbers)%Z).
Proof.
  intros Hl He Hn sums.
  destruct (sort_values_sorts sums) as [Hperm Hdesc].
  set (ranked := sort_values sums) in *.
  assert (Hshown : forall r, In r (firstn 5 ranked) -> In r sums).
  { intros r Hr. apply (Permutation_in _ Hperm).
    rewrite <- (firstn_skipn 5 ranked). apply in_or_app. now left. }
  assert (Hdom : forall out shown, In out sums -> ~ In out (firstn 5 ranked) ->
                   In shown (firstn 5 ranked) -> (snd out <= snd shown)%Z).
  { intros out shown Hout Hnot Hin'.
    apply (Permutation_in _ (Permutation_sym Hperm)) in Hout.
    destruct (In_firstn_skipn 5 _ _ Hout) as [Hin|Hin]; [contradiction|].
    apply descending_strongly in Hdesc.
    rewrite <- (firstn_skipn 5 ranked) in Hdesc.
    exact (StronglySorted_app_inv _ _ _ Hdesc shown out Hin' Hin). }
  exists (firstn 5 ranked).
  split; [|split; [|split; [|split; [|split; [|split]]]]].
  - unfold location_engagements.
    now rewrite Hl, bind_ret_l, He, bind_ret_l, Hn, bind_ret_l.
  - apply firstn_le_length.
  - exact Hshown.
  - intros k n Hin. now apply (proj2 (groupby_sum_keys location numbers)) in Hin.
  - exact Hdom.
  - intros Hfew. rewrite firstn_all2; [exact Hperm|].
    now rewrite (Permutation_length Hperm).
  - intros Hfits out shown Hout Hnot Hin.
    destruct (groupby_sum_exact location numbers Hfits) as [Hexact _].
    destruct out as [ko no], shown as [ks ns]. cbn [fst].
    rewrite <- (Hexact ko no Hout), <- (Hexact ks ns (Hshown _ Hin)).
    exact (Hdom _ _ Hout Hnot Hin).
Qed.

(** X16: the counts of the sentiment breakdown, and those of the media-type
    mix, add up to the number of rows whose cell is not missing. *)
Theorem category_counts_total (df : DataFrame) (sentiment mediatype : list value) :
  getitem df "sentiment" = ret sentiment ->
  getitem df "mediatype" = ret mediatype ->
  exists by_sentiment by_mediatype,
    sentiment_counts sort_values df = ret by_sentiment
    /\ mediatype_counts sort_values df = ret by_mediatype
    /\ sum (map snd by_sentiment) = Z.of_nat (List.length (filter notna sentiment))
    /\ sum (map snd by_mediatype) = Z.of_nat (List.length (filter notna mediatype)).
Proof.
  intros Hs Hm.
  assert (Htotal : forall col,
            sum (map snd (value_counts sort_values col))
            = Z.of_nat (List.length (filter notna col))).
  { intros col. unfold value_counts.
    set (rows := map (fun k => (k, count k col)) (unique (filter notna col))).
    destruct (sort_values_sorts rows) as [Hperm _].
    rewrite (sum_perm _ _ (Permutation_map snd Hperm)).
    unfold rows. rewrite map_map. cbn [snd].
    rewrite (map_ext _ _ (fun k => count_as_sum k col)).
    rewrite (sum_where_total _ col _ (unique_NoDup _)).
    rewrite (present_keys_mask (unique (filter notna col)) col).
    - now rewrite select_map, select_filter, sum_ones.
    - intros k. now rewrite unique_In, filter_In. }
  exists (value_counts sort_values sentiment), (value_counts sort_values mediatype).
  unfold sentiment_counts, mediatype_counts. rewrite Hs, Hm, !bind_ret_l.
  repeat split; apply Htotal.
Qed.

End AggregatorExtras.

Lemma platform_engagements_spec_witness :
  platform_engagements Reference.sort_values
    (cleaned Reference.lower Reference.to_datetime Reference.to_numeric Reference.cast_overflow Uploads.dates)
  = ret [(Text "Web", 30); (Text "X", 12)]%Z.
Proof.
  destruct (platform_engagements_spec Reference.sort_values reference_sorts
              (cleaned Reference.lower Reference.to_datetime Reference.to_numeric Reference.cast_overflow Uploads.dates)
              [Text "X"; Text "Web"] [Int 12; Int 30] [12; 30]%Z
              eq_refl eq_refl eq_refl)
    as (v & Hv & _).
  rewrite Hv. vm_compute in Hv. injection Hv as Hv. now rewrite <- Hv.
Defined.

Lemma top_locations_dominate_witness :
  exists v,
    location_engagements Reference.sort_values
      (cleaned Reference.lower Reference.to_datetime Reference.to_numeric Reference.cast_overflow Uploads.locations)
    = ret v
    /\ List.length v <= 5.
Proof.
  destruct (top_locations_dominate Reference.sort_values reference_sorts
              (cleaned Reference.lower Reference.to_datetime Reference.to_numeric Reference.cast_overflow Uploads.locations)
              [Text "A"; Text "B"; Text "C"; Text "D"; Text "E"; Text "F"; Text "B"; Text "A"]
              [Int 4; Int 10; Int 20; Int 5; Int 25; Int 1; Int 20; Int 6]
              [4; 10; 20; 5; 25; 1; 20; 6]%Z
              eq_refl eq_refl eq_refl)
    as (v & Hv & Hlen & _).
  exists v. split; [exact Hv | exact Hlen].
Defined.

Lemma category_counts_total_witness :
  exists by_sentiment,
    sentiment_counts Reference.sort_values
      (cleaned Reference.lower Reference.to_datetime Reference.to_numeric Reference.cast_overflow Uploads.engagements)
    = ret by_sentiment
    /\ sum (map snd by_sentiment) = 3%Z.
Proof.
  destruct (category_counts_total Reference.sort_values reference_sorts
              (cleaned Reference.lower Reference.to_datetime Reference.to_numeric Reference.cast_overflow Uploads.engagements)
              [Text "positive"; Text "negative"; Text "positive"; NaN]
              [Text "video"; Text "text"; Text "text"; Text "image"]
              eq_refl eq_refl)
    as (s & m & Hs & _ & Hsum & _).
  exists s. split; [exact Hs | exact Hsum].
Defined.

(** ** The aggregator: the trend *)

Lemma periods_of_all (stamps : list Z) : all_periods (periods_of stamps).
Proof. unfold all_periods, periods_of. induction stamps; simpl; auto. Qed.

Lemma all_periods_In (l : list value) :
  all_periods l <-> forall k, In k l -> is_period k = true.
Proof. unfold all_periods. apply forallb_forall. Qed.

Lemma is_period_day (k : value) : is_period k = true -> k = Period (period_day k).
Proof. destruct k; simpl; try discriminate. reflexivity. Qed.

Lemma filter_notna_periods (l : list value) : all_periods l -> filter notna l = l.
Proof.
  unfold all_periods. induction l as [|k l IH]; simpl; [reflexivity|].
  intros H. apply andb_prop in H. destruct H as [Hk Hl].
  destruct k; simpl in *; try discriminate. now rewrite IH.
Qed.

Lemma insert_key_periods (k : value) (l : list value) :
  is_period k = true -> all_periods l ->
  Sorted (fun a b => (period_day a <= period_day b)%Z) l ->
  Sorted (fun a b => (period_day a <= period_day b)%Z) (insert_key k l).
Proof.
  intros Hk. induction l as [|x l IH]; simpl; intros Hl H.
  - repeat constructor.
  - unfold all_periods in Hl. simpl in Hl. apply andb_prop in Hl.
    destruct Hl as [Hx Hl].
    rewrite (is_period_day k Hk), (is_period_day x Hx). cbn [value_leb].
    rewrite <- (is_period_day k Hk), <- (is_period_day x Hx).
    destruct (Z.leb_spec (period_day k) (period_day x)) as [Hle|Hgt].
    + constructor; [exact H|]. constructor. exact Hle.
    + inversion H as [|? ? Hs Hd]; subst. constructor; [now apply IH|].
      destruct l as [|y l]; simpl.
      * constructor. lia.
      * destruct (value_leb k y); constructor; [lia | now inversion Hd].
Qed.

Lemma sort_keys_periods (l : list value) :
  all_periods l ->
  Sorted (fun a b => (period_day a <= period_day b)%Z) (sort_keys l).
Proof.
  induction l as [|k l IH]; simpl; intros H; [constructor|].
  unfold all_periods in H. simpl in H. apply andb_prop in H. destruct H as [Hk Hl].
  apply insert_key_periods; [exact Hk | | now apply IH].
  apply all_periods_In. intros x Hx.
  apply (Permutation_in _ (sort_keys_perm l)) in Hx.
  exact (proj1 (all_periods_In l) Hl x Hx).
Qed.

Lemma sorted_distinct_days (l : list Z) :
  Sorted Z.le l -> NoDup l -> StronglySorted Z.lt l.
Proof.
  intros Hs Hnd.
  assert (Hss : StronglySorted Z.le l)
    by (apply Sorted_StronglySorted; [intros a b c; lia | exact Hs]).
  clear Hs. induction l as [|x l IH]; constructor.
  - inversion Hss; inversion Hnd; subst. now apply IH.
  - inversion Hss as [|? ? _ Hf]; inversion Hnd as [|? ? Hx _]; subst.
    rewrite Forall_forall in Hf |- *. intros y Hy.
    specialize (Hf y Hy). assert (x <> y) by (intros ->; contradiction). lia.
Qed.

Section Trend.

Variable period_str : Z -> string.

(** X17: the trend view of a table whose dates are time stamps holds one
    row per calendar day on which the table has a row, in order of the
    days, each with the sum of the engagements of that day added in int64
    (the sum wrapped around); added in int64 these numbers give the int64
    sum of the engagements of all the rows, and where the sum of every day
    is an int64 they are the sums and add up to the engagements of all the
    rows. *)
Theorem engagement_trend_spec (df : DataFrame) (stamps : list Z)
    (engagements : list value) (numbers : list Z) :
  getitem df "date" = ret (map Timestamp stamps) ->
  getitem df "engagements" = ret engagements ->
  ints engagements = ret numbers ->
  let total d := sum_where (Period d) (periods_of stamps) numbers in
  exists days,
    engagement_trend period_str df
    = ret (map (fun d => (Text (period_str d), wrap64 (total d))) days)
    /\ StronglySorted Z.lt days
    /\ (forall d, In d days <-> exists ns, In ns stamps /\ d = day_of ns)
    /\ (List.length stamps = List.length numbers ->
        sum64 (map (fun d => wrap64 (total d)) days) = sum64 numbers)
    /\ (List.length stamps = List.length numbers ->
        (forall d, In d days -> fits_int64 (total d) = true) ->
        (forall d, In d days -> wrap64 (total d) = total d)
        /\ sum (map total days) = sum numbers).
Proof.
  intros Hd He Hn total.
  set (periods := periods_of stamps).
  set (K := sort_keys (unique (filter notna periods))).
  pose proof (periods_of_all stamps) as Hall. fold periods in Hall.
  assert (HK : forall k, In k K <-> In k periods).
  { intros k. unfold K. rewrite (filter_notna_periods _ Hall). split; intros H.
    - apply (Permutation_in _ (sort_keys_perm _)) in H.
      exact (proj1 (unique_In _ _) H).
    - apply (Permutation_in _ (Permutation_sym (sort_keys_perm _))).
      exact (proj2 (unique_In _ _) H). }
  assert (HKp : forall k, In k K -> k = Period (period_day k)).
  { intros k Hk. apply is_period_day. apply (proj1 (all_periods_In _) Hall).
    now apply HK. }
  assert (HKnd : NoDup K).
  { apply (Permutation_NoDup (Permutation_sym (sort_keys_perm _))), unique_NoDup. }
  assert (Hmask : List.length stamps = List.length numbers ->
                  select (map notna periods) numbers = numbers).
  { intros Hlen. apply select_all.
    - clear -Hall. unfold all_periods in Hall.
      induction periods as [|k l IH]; simpl in *; [reflexivity|].
      apply andb_prop in Hall. destruct Hall as [Hk Hl].
      destruct k; simpl in *; try discriminate. now apply IH.
    - unfold periods, periods_of. now rewrite !length_map. }
  assert (Htotals : map total (map period_day K)
                    = map (fun k => sum_where k periods numbers) K).
  { rewrite map_map. apply map_ext_in. intros k Hk. unfold total. fold periods.
    now rewrite <- (HKp k Hk). }
  exists (map period_day K).
  split; [|split; [|split; [|split]]].
  - unfold engagement_trend.
    rewrite Hd, bind_ret_l, to_period_D_timestamps, bind_ret_l.
    rewrite He, bind_ret_l, Hn, bind_ret_l.
    f_equal. unfold groupby_sum. fold (periods_of stamps). fold periods. fold K.
    rewrite !map_map. apply map_ext_in. intros k Hk. cbn [fst snd].
    unfold total. fold periods. rewrite <- (HKp k Hk), sum64_wrap.
    rewrite (HKp k Hk) at 1. reflexivity.
  - apply sorted_distinct_days.
    + assert (Hs : Sorted (fun a b => (period_day a <= period_day b)%Z) K).
      { unfold K. apply sort_keys_periods. apply all_periods_In. intros k Hk.
        apply (proj1 (unique_In _ _)) in Hk. apply filter_In in Hk.
        exact (proj1 (all_periods_In _) Hall k (proj1 Hk)). }
      clear -Hs. induction Hs as [|k l Hs IH Hhd]; simpl; constructor; [exact IH|].
      destruct Hhd; simpl; constructor. assumption.
    + clear -HKnd HKp. induction K as [|k K IH]; simpl; constructor.
      * inversion HKnd as [|? ? Hk _]; subst. intros Hin.
        apply in_map_iff in Hin. destruct Hin as (x & Ex & Hx).
        apply Hk. rewrite (HKp k (or_introl eq_refl)), <- Ex.
        rewrite <- (HKp x (or_intror Hx)). exact Hx.
      * inversion HKnd; subst.
        apply IH; try assumption. intros x Hx. apply HKp. now right.
  - intros d. rewrite in_map_iff. split.
    + intros (k & <- & Hk). apply HK in Hk. unfold periods, periods_of in Hk.
      apply in_map_iff in Hk. destruct Hk as (ns & <- & Hns).
      exists ns. now split.
    + intros (ns & Hns & ->). exists (Period (day_of ns)). split; [reflexivity|].
      apply HK. unfold periods, periods_of. apply in_map_iff. now exists ns.
  - intros Hlen.
    rewrite <- (map_map total wrap64), Htotals, !sum64_wrap, wrap64_sum_map.
    unfold K. now rewrite sum_where_keys_total, (Hmask Hlen).
  - intros Hlen Hfits. split.
    + intros d Hd'. now apply wrap64_id, Hfits.
    + rewrite Htotals. unfold K. now rewrite sum_where_keys_total, (Hmask Hlen).
Qed.

End Trend.

Lemma engagement_trend_spec_witness :
  exists days,
    engagement_trend Reference.period_str
      (cleaned Reference.lower Reference.to_datetime Reference.to_numeric Reference.cast_overflow Uploads.dates)
    = ret (map (fun d => (Text (Reference.period_str d),
                          wrap64 (sum_where (Period d)
                                    (periods_of [1704067200000000000;
                                                 1704240000000000000]%Z)
                                    [12; 30]%Z)))
             days)
    /\ StronglySorted Z.lt days
    /\ (In 19723%Z days /\ In 19725%Z days).
Proof.
  destruct (engagement_trend_spec Reference.period_str
              (cleaned Reference.lower Reference.to_datetime Reference.to_numeric Reference.cast_overflow Uploads.dates)
              [1704067200000000000; 1704240000000000000]%Z
              [Int 12; Int 30] [12; 30]%Z eq_refl eq_refl eq_refl)
    as (days & Hv & Hsorted & Hdays & _).
  exists days. split; [exact Hv|]. split; [exact Hsorted|]. split.
  - apply Hdays. exists 1704067200000000000%Z. split; [now left | reflexivity].
  - apply Hdays. exists 1704240000000000000%Z. split; [right; now left | reflexivity].
Defined.
